(** * aumai-jaldrishti: rule-based water classification and alerting

    A shallow embedding of [aumai_jaldrishti/models.py] and
    [aumai_jaldrishti/core.py], and the properties of the grading,
    registry, groundwater, rainfall and alert code proved over it.

    Conventions of the embedding:
    - a Python [float] is an exact rational ([Q]); the comparisons of the
      source are the boolean comparisons below, [round(x, n)] rounds half
      to even on [n] decimals, and [/] raises [ZeroDivisionError] on a
      zero denominator. The rounding of binary floating point after each
      operation is not modelled, so a computed value can differ from the
      one of the code in its last digits; the statements below rest on
      comparisons, guards, orders and bounds, which that rounding keeps;
    - a Python [int] is a [Z]; a [str] is a [string];
    - a [dict] is an association list in insertion order, an existing key
      keeps its position when it is overwritten;
    - an f-string is kept as the list of its literal and interpolated
      parts, except where it formats an [int], which is rendered. *)

From Stdlib Require Import ZArith QArith Qround Bool List Lia Lqa.
From Stdlib Require Import Ascii String DecimalString DecimalN.
From Stdlib Require Import Sorting.Permutation Sorting.Sorted.
Import ListNotations.

Set Implicit Arguments.
Open Scope string_scope.
Open Scope list_scope.
Open Scope Z_scope.
Open Scope Q_scope.

(** ** Python numbers *)

Module Py.

(** [x < y], [x <= y], [x > y], [x >= y], [x == y] on floats. *)
Definition ltb (x y : Q) : bool := negb (Qle_bool y x).
Definition leb (x y : Q) : bool := Qle_bool x y.
Definition gtb (x y : Q) : bool := ltb y x.
Definition geb (x y : Q) : bool := leb y x.
Definition eqb (x y : Q) : bool := Qeq_bool x y.

(** [max(a, b)]: the first argument unless the second is greater. *)
Definition max (a b : Q) : Q := if gtb b a then b else a.
(** [min(a, b)]: the first argument unless the second is smaller. *)
Definition min (a b : Q) : Q := if ltb b a then b else a.

(** [sum(xs)]: a left fold from the integer 0. *)
Definition sum (xs : list Q) : Q := fold_left Qplus xs 0.

Definition len {A} (l : list A) : Z := Z.of_nat (List.length l).

(** What an operation of the core can raise: a division by zero, and the
    rejection of a field value by the constraints of a model. *)
Inductive exn := ZeroDivisionError | ValidationError.

Inductive result (A : Type) :=
| Ok (a : A)
| Raise (e : exn).
Arguments Ok {A} a.
Arguments Raise {A} e.

Definition bind {A B} (m : result A) (k : A -> result B) : result B :=
  match m with
  | Ok a => k a
  | Raise e => Raise e
  end.

Fixpoint mapM {A B} (f : A -> result B) (l : list A) : result (list B) :=
  match l with
  | [] => Ok []
  | x :: l' =>
      bind (f x) (fun y => bind (mapM f l') (fun ys => Ok (y :: ys)))
  end.

(** [[x for x in l if f(x)]] where the test may raise. *)
Fixpoint filterM {A} (f : A -> result bool) (l : list A) : result (list A) :=
  match l with
  | [] => Ok []
  | x :: l' =>
      bind (f x) (fun b =>
      bind (filterM f l') (fun ys => Ok (if b then x :: ys else ys)))
  end.

(** [max(first :: rest, key=...)]: the first element of greatest key. *)
Fixpoint max_by {A} (key : A -> Z) (best : A) (rest : list A) : A :=
  match rest with
  | [] => best
  | x :: rest' =>
      if (key x >? key best)%Z then max_by key x rest'
      else max_by key best rest'
  end.

(** [x / y] (true division). *)
Definition div (x y : Q) : result Q :=
  if eqb y 0 then Raise ZeroDivisionError else Ok (x / y).

(** [round(x, n)] for [n >= 0]: the nearest multiple of [10^-n], ties to
    the even one. *)
Definition round_half_even (y : Q) : Z :=
  let f := Qfloor y in
  let r := y - inject_Z f in
  if ltb r (1 # 2) then f
  else if gtb r (1 # 2) then (f + 1)%Z
  else if Z.even f then f else (f + 1)%Z.

Definition round (x : Q) (n : nat) : Q :=
  let s := inject_Z (10 ^ Z.of_nat n) in
  inject_Z (round_half_even (x * s)) / s.

(** [l[start:]] *)
Definition slice_from {A} (start : Z) (l : list A) : list A :=
  let n := len l in
  let s := if (start <? 0)%Z then Z.max 0 (start + n) else Z.min start n in
  skipn (Z.to_nat s) l.

(** [sorted(l, key=...)]: the stable sort; [le a b] is [not (key b < key a)]. *)
Fixpoint insert {A} (le : A -> A -> bool) (x : A) (l : list A) : list A :=
  match l with
  | [] => [x]
  | y :: l' => if le x y then x :: l else y :: insert le x l'
  end.

Definition sorted {A} (le : A -> A -> bool) (l : list A) : list A :=
  fold_right (insert le) [] l.

(** [l[-1] if l else None] *)
Definition last_opt {A} (l : list A) : option A :=
  match rev l with
  | [] => None
  | x :: _ => Some x
  end.

(** The parts of an f-string. *)
Inductive piece :=
| Lit (s : string)
| Str (s : string)
| Int (z : Z)
| Num (x : Q)
| NumFmt (x : Q) (spec : string).

Definition fstring := list piece.

(** [f"{n:04d}"] for [n >= 0]: decimal digits, zero-padded to 4. *)
Fixpoint zeros (k : nat) : string :=
  match k with
  | O => EmptyString
  | S k' => String "0" (zeros k')
  end.

Definition digits (n : N) : string := NilEmpty.string_of_uint (N.to_uint n).

Definition fmt_04d (n : N) : string :=
  let d := digits n in
  (zeros (4 - String.length d) ++ d)%string.

End Py.

Notation "x <? y" := (Py.ltb x y) : Q_scope.
Notation "x <=? y" := (Py.leb x y) : Q_scope.
Notation "x >? y" := (Py.gtb x y) : Q_scope.
Notation "x >=? y" := (Py.geb x y) : Q_scope.
Notation "x =? y" := (Py.eqb x y) : Q_scope.
Notation "'let*' x ':=' m 'in' k" := (Py.bind m (fun x => k))
  (at level 10, x name, m at level 100, k at level 200).

(** A [dict] with [str] keys. *)
Module Dict.

Definition t (V : Type) := list (string * V).

Definition empty {V} : t V := [].

Fixpoint get {V} (k : string) (d : t V) : option V :=
  match d with
  | [] => None
  | (k', v) :: d' => if String.eqb k' k then Some v else get k d'
  end.

(** [d[k] = v] *)
Fixpoint set {V} (k : string) (v : V) (d : t V) : t V :=
  match d with
  | [] => [(k, v)]
  | (k', v') :: d' =>
      if String.eqb k' k then (k, v) :: d' else (k', v') :: set k v d'
  end.

Definition values {V} (d : t V) : list V := map snd d.

End Dict.

(** ** models.py *)

Inductive WaterSourceType :=
| BOREWELL | HANDPUMP | OPEN_WELL | RIVER | POND | SPRING | RESERVOIR
| RAINWATER | PIPELINE.

Inductive WaterQualityGrade := SAFE | ACCEPTABLE | CONTAMINATED | HAZARDOUS.

Inductive SeasonType := PRE_MONSOON | MONSOON | POST_MONSOON | WINTER.

Inductive AlertLevel := INFO | WARNING | CRITICAL | EMERGENCY.

(** [SeasonType.value] *)
Definition season_value (s : SeasonType) : string :=
  match s with
  | PRE_MONSOON => "pre_monsoon"
  | MONSOON => "monsoon"
  | POST_MONSOON => "post_monsoon"
  | WINTER => "winter"
  end.

Definition season_eqb (a b : SeasonType) : bool :=
  match a, b with
  | PRE_MONSOON, PRE_MONSOON | MONSOON, MONSOON
  | POST_MONSOON, POST_MONSOON | WINTER, WINTER => true
  | _, _ => false
  end.

Module WaterSource.

Record t := {
  source_id : string;
  panchayat_id : string;
  name : string;
  source_type : WaterSourceType;
  latitude : Q;
  longitude : Q;
  capacity_liters_per_day : Q;
  current_yield_lpd : Q;
  depth_meters : Q;
  is_functional : bool;
  last_tested_date : string
}.

(** The [Field] constraints. *)
Definition valid (s : t) : Prop :=
  -90 <= latitude s /\ latitude s <= 90 /\
  -180 <= longitude s /\ longitude s <= 180 /\
  0 <= capacity_liters_per_day s /\ 0 <= current_yield_lpd s /\
  0 <= depth_meters s.

Definition yield_pct (s : t) : Py.result Q :=
  if capacity_liters_per_day s =? 0 then Py.Ok 0
  else
    let* q := Py.div (current_yield_lpd s) (capacity_liters_per_day s) in
    Py.Ok (Py.round (q * 100) 1).

End WaterSource.

Module WaterQualityReport.

Record t := {
  report_id : string;
  source_id : string;
  test_date : string;
  ph : Q;
  tds_ppm : Q;
  turbidity_ntu : Q;
  chloride_ppm : Q;
  fluoride_ppm : Q;
  arsenic_ppb : Q;
  iron_ppm : Q;
  nitrate_ppm : Q;
  coliform_present : bool;
  grade : WaterQualityGrade
}.

Definition valid (r : t) : Prop :=
  0 <= ph r /\ ph r <= 14 /\ 0 <= tds_ppm r /\ 0 <= turbidity_ntu r /\
  0 <= chloride_ppm r /\ 0 <= fluoride_ppm r /\ 0 <= arsenic_ppb r /\
  0 <= iron_ppm r /\ 0 <= nitrate_ppm r.

End WaterQualityReport.

Module FHTCStatus.

Record t := {
  panchayat_id : string;
  panchayat_name : string;
  total_households : Z;
  fhtc_provided : Z;
  fhtc_functional : Z;
  target_date : string;
  report_date : string
}.

Definition valid (s : t) : Prop :=
  (0 <= total_households s)%Z /\ (0 <= fhtc_provided s)%Z /\
  (0 <= fhtc_functional s)%Z.

Definition coverage_pct (s : t) : Py.result Q :=
  if (total_households s =? 0)%Z then Py.Ok 0
  else
    let* q := Py.div (inject_Z (fhtc_provided s))
                     (inject_Z (total_households s)) in
    Py.Ok (Py.round (q * 100) 1).

Definition functional_pct (s : t) : Py.result Q :=
  if (fhtc_provided s =? 0)%Z then Py.Ok 0
  else
    let* q := Py.div (inject_Z (fhtc_functional s))
                     (inject_Z (fhtc_provided s)) in
    Py.Ok (Py.round (q * 100) 1).

End FHTCStatus.

Module GroundwaterLevel.

Record t := {
  panchayat_id : string;
  season : SeasonType;
  year : Z;
  depth_meters : Q;
  previous_year_depth : Q
}.

Definition valid (r : t) : Prop :=
  0 <= depth_meters r /\ 0 <= previous_year_depth r.

Definition change_meters (r : t) : Q :=
  Py.round (depth_meters r - previous_year_depth r) 2.

Definition is_declining (r : t) : bool :=
  depth_meters r >? previous_year_depth r.

End GroundwaterLevel.

Module WaterAlert.

Record t := {
  alert_id : string;
  panchayat_id : string;
  level : AlertLevel;
  category : string;
  message : Py.fstring;
  source_id : string;
  date : string;
  is_active : bool
}.

End WaterAlert.

Module WaterBudget.

Record t := {
  panchayat_id : string;
  year : Z;
  total_demand_lpd : Q;
  total_supply_lpd : Q;
  domestic_demand_lpd : Q;
  agriculture_demand_lpd : Q;
  industrial_demand_lpd : Q
}.

Definition valid (b : t) : Prop :=
  0 <= total_demand_lpd b /\ 0 <= total_supply_lpd b /\
  0 <= domestic_demand_lpd b /\ 0 <= agriculture_demand_lpd b /\
  0 <= industrial_demand_lpd b.

(** [WaterBudget(...)]: the construction checks the [Field(ge=0)]
    constraints and raises when one fails. *)
Definition validated (b : t) : Py.result t :=
  if (total_demand_lpd b >=? 0) && (total_supply_lpd b >=? 0)
     && (domestic_demand_lpd b >=? 0) && (agriculture_demand_lpd b >=? 0)
     && (industrial_demand_lpd b >=? 0)
  then Py.Ok b else Py.Raise Py.ValidationError.

Definition surplus_deficit_lpd (b : t) : Q :=
  Py.round (total_supply_lpd b - total_demand_lpd b) 0.

Definition is_deficit (b : t) : bool :=
  total_supply_lpd b <? total_demand_lpd b.

End WaterBudget.

Module RainfallRecord.

Record t := {
  panchayat_id : string;
  month : Z;
  year : Z;
  rainfall_mm : Q;
  normal_mm : Q
}.

Definition valid (r : t) : Prop :=
  (1 <= month r <= 12)%Z /\ 0 <= rainfall_mm r /\ 0 <= normal_mm r.

Definition deviation_pct (r : t) : Py.result Q :=
  if normal_mm r =? 0 then Py.Ok 0
  else
    let* q := Py.div (rainfall_mm r - normal_mm r) (normal_mm r) in
    Py.Ok (Py.round (q * 100) 1).

End RainfallRecord.

(** ** core.py *)

(** [_BIS_LIMITS]: BIS 10500:2012 drinking water standards. *)
Module BIS_LIMITS.
Definition ph_min : Q := 6.5.
Definition ph_max : Q := 8.5.
Definition tds_acceptable : Q := 500.
Definition tds_permissible : Q := 2000.
Definition turbidity_acceptable : Q := 1.
Definition turbidity_permissible : Q := 5.
Definition chloride_acceptable : Q := 250.
Definition chloride_permissible : Q := 1000.
Definition fluoride_acceptable : Q := 1.0.
Definition fluoride_permissible : Q := 1.5.
Definition arsenic_max_ppb : Q := 10.
Definition iron_acceptable : Q := 0.3.
Definition iron_permissible : Q := 1.0.
Definition nitrate_max : Q := 45.
End BIS_LIMITS.

Definition JJM_LPCD_STANDARD : Z := 55.

Module WaterQualityAnalyzer.
Import WaterQualityReport BIS_LIMITS Py.

(** The two flags [hazardous] and [contaminated] are threaded through the
    parameter checks in the order of the source. *)
Definition grade_report (report : WaterQualityReport.t) : WaterQualityGrade :=
  let hazardous := false in
  let contaminated := false in
  (* pH *)
  let '(hazardous, contaminated) :=
    if (ph report <? 5.0) || (ph report >? 9.5) then (true, contaminated)
    else if (ph report <? ph_min) || (ph report >? ph_max)
         then (hazardous, true)
         else (hazardous, contaminated) in
  (* TDS *)
  let '(hazardous, contaminated) :=
    if tds_ppm report >? tds_permissible then (true, contaminated)
    else if tds_ppm report >? tds_acceptable then (hazardous, true)
         else (hazardous, contaminated) in
  (* Turbidity *)
  let contaminated :=
    if turbidity_ntu report >? turbidity_permissible then true
    else contaminated in
  (* Fluoride *)
  let '(hazardous, contaminated) :=
    if fluoride_ppm report >? fluoride_permissible then (true, contaminated)
    else if fluoride_ppm report >? fluoride_acceptable then (hazardous, true)
         else (hazardous, contaminated) in
  (* Arsenic *)
  let hazardous :=
    if arsenic_ppb report >? arsenic_max_ppb then true else hazardous in
  (* Iron *)
  let contaminated :=
    if iron_ppm report >? iron_permissible then true else contaminated in
  (* Nitrate *)
  let hazardous :=
    if nitrate_ppm report >? nitrate_max then true else hazardous in
  (* Coliform *)
  let hazardous := if coliform_present report then true else hazardous in
  if hazardous then HAZARDOUS
  else if contaminated then CONTAMINATED
  else if (tds_ppm report <=? tds_acceptable)
          && (turbidity_ntu report <=? turbidity_acceptable)
          && (fluoride_ppm report <=? fluoride_acceptable)
          && (iron_ppm report <=? iron_acceptable)
       then SAFE
       else ACCEPTABLE.

Definition append_if {A} (c : bool) (x : A) (l : list A) : list A :=
  if c then l ++ [x] else l.

Definition identify_contaminants (report : WaterQualityReport.t)
  : list fstring :=
  let issues := [] in
  let issues := append_if (ph report <? ph_min)
    [Lit "pH too low: "; Num (ph report); Lit " (min "; Num ph_min; Lit ")"]
    issues in
  let issues := append_if (ph report >? ph_max)
    [Lit "pH too high: "; Num (ph report); Lit " (max "; Num ph_max; Lit ")"]
    issues in
  let issues := append_if (tds_ppm report >? tds_acceptable)
    [Lit "TDS: "; Num (tds_ppm report); Lit " ppm (limit ";
     Num tds_acceptable; Lit ")"] issues in
  let issues := append_if (turbidity_ntu report >? turbidity_acceptable)
    [Lit "Turbidity: "; Num (turbidity_ntu report); Lit " NTU (limit ";
     Num turbidity_acceptable; Lit ")"] issues in
  let issues := append_if (fluoride_ppm report >? fluoride_acceptable)
    [Lit "Fluoride: "; Num (fluoride_ppm report); Lit " ppm (limit ";
     Num fluoride_acceptable; Lit ")"] issues in
  let issues := append_if (arsenic_ppb report >? arsenic_max_ppb)
    [Lit "Arsenic: "; Num (arsenic_ppb report); Lit " ppb (limit ";
     Num arsenic_max_ppb; Lit ")"] issues in
  let issues := append_if (iron_ppm report >? iron_acceptable)
    [Lit "Iron: "; Num (iron_ppm report); Lit " ppm (limit ";
     Num iron_acceptable; Lit ")"] issues in
  let issues := append_if (nitrate_ppm report >? nitrate_max)
    [Lit "Nitrate: "; Num (nitrate_ppm report); Lit " ppm (limit ";
     Num nitrate_max; Lit ")"] issues in
  let issues := append_if (chloride_ppm report >? chloride_acceptable)
    [Lit "Chloride: "; Num (chloride_ppm report); Lit " ppm (limit ";
     Num chloride_acceptable; Lit ")"] issues in
  let issues := append_if (coliform_present report)
    [Lit "Coliform bacteria detected"] issues in
  issues.

Definition recommend_treatment (report : WaterQualityReport.t)
  : list string :=
  let treatments := [] in
  let treatments := append_if (coliform_present report)
    "Chlorination or UV disinfection for bacterial contamination"
    treatments in
  let treatments := append_if (tds_ppm report >? tds_acceptable)
    "Reverse osmosis (RO) for high TDS" treatments in
  let treatments := append_if (fluoride_ppm report >? fluoride_acceptable)
    "Activated alumina or bone char defluoridation" treatments in
  let treatments := append_if (arsenic_ppb report >? arsenic_max_ppb)
    "Arsenic removal plant (oxidation + adsorption)" treatments in
  let treatments := append_if (iron_ppm report >? iron_acceptable)
    "Aeration and filtration for iron removal" treatments in
  let treatments := append_if (turbidity_ntu report >? turbidity_acceptable)
    "Slow sand filtration or coagulation-flocculation" treatments in
  let treatments := append_if (nitrate_ppm report >? nitrate_max)
    "Ion exchange or biological denitrification" treatments in
  let treatments := append_if (ph report <? ph_min)
    "Lime dosing to raise pH" treatments in
  let treatments := append_if (ph report >? ph_max)
    "Acid dosing or CO2 injection to lower pH" treatments in
  treatments.

End WaterQualityAnalyzer.

Module SourceManager.
Import WaterSource.

(** [self._sources] *)
Definition t := Dict.t WaterSource.t.

Definition init : t := Dict.empty.

Definition register (source : WaterSource.t) (self : t) : t :=
  Dict.set (source_id source) source self.

Definition get (id : string) (self : t) : option WaterSource.t :=
  Dict.get id self.

Definition by_panchayat (self : t) (pid : string) : list WaterSource.t :=
  filter (fun s => String.eqb (panchayat_id s) pid) (Dict.values self).

Definition functional_sources (self : t) (pid : string)
  : list WaterSource.t :=
  filter (fun s => is_functional s) (by_panchayat self pid).

Definition total_supply_lpd (self : t) (pid : string) : Q :=
  Py.sum (map current_yield_lpd (functional_sources self pid)).

Definition non_functional_sources (self : t) (pid : string)
  : list WaterSource.t :=
  filter (fun s => negb (is_functional s)) (by_panchayat self pid).

Definition source_type_eqb (a b : WaterSourceType) : bool :=
  match a, b with
  | BOREWELL, BOREWELL | HANDPUMP, HANDPUMP | OPEN_WELL, OPEN_WELL
  | RIVER, RIVER | POND, POND | SPRING, SPRING | RESERVOIR, RESERVOIR
  | RAINWATER, RAINWATER | PIPELINE, PIPELINE => true
  | _, _ => false
  end.

Definition by_type (self : t) (ty : WaterSourceType) : list WaterSource.t :=
  filter (fun s => source_type_eqb (source_type s) ty) (Dict.values self).

Definition low_yield_sources (self : t) (pid : string) (threshold_pct : Q)
  : Py.result (list WaterSource.t) :=
  Py.filterM (fun s => let* y := yield_pct s in Py.Ok (y <? threshold_pct))
             (functional_sources self pid).

End SourceManager.

Module JJMTracker.
Import FHTCStatus.

(** [self._records] *)
Definition t := Dict.t FHTCStatus.t.

Definition init : t := Dict.empty.

Definition update (status : FHTCStatus.t) (self : t) : t :=
  Dict.set (panchayat_id status) status self.

Definition get (pid : string) (self : t) : option FHTCStatus.t :=
  Dict.get pid self.

Record summary := {
  avg_coverage_pct : Q;
  avg_functional_pct : Q
}.

Definition coverage_summary (self : t) : Py.result summary :=
  match self with
  | [] => Py.Ok {| avg_coverage_pct := 0; avg_functional_pct := 0 |}
  | _ =>
      let* coverages := Py.mapM coverage_pct (Dict.values self) in
      let* functionals :=
        Py.mapM functional_pct
          (filter (fun s => (fhtc_provided s >? 0)%Z) (Dict.values self)) in
      let* c := Py.div (Py.sum coverages) (inject_Z (Py.len coverages)) in
      let* f :=
        match functionals with
        | [] => Py.Ok 0
        | _ =>
            let* q := Py.div (Py.sum functionals)
                             (inject_Z (Py.len functionals)) in
            Py.Ok (Py.round q 1)
        end in
      Py.Ok {| avg_coverage_pct := Py.round c 1; avg_functional_pct := f |}
  end.

Definition demand_gap (self : t) (pid : string) : Z :=
  match Dict.get pid self with
  | None => 0
  | Some status => Z.max 0 (total_households status - fhtc_provided status)
  end.

Record lpcd := {
  actual_lpcd : Q;
  required_lpcd : Q;
  gap_lpd : Q
}.

Definition lpcd_check (pid : string) (population : Z) (total_supply_lpd : Q)
  : Py.result lpcd :=
  if (population =? 0)%Z then
    Py.Ok {| actual_lpcd := 0;
             required_lpcd := inject_Z JJM_LPCD_STANDARD;
             gap_lpd := 0 |}
  else
    let* actual := Py.div total_supply_lpd (inject_Z population) in
    let required_lpd := inject_Z (population * JJM_LPCD_STANDARD) in
    let gap := Py.max 0 (required_lpd - total_supply_lpd) in
    Py.Ok {| actual_lpcd := Py.round actual 1;
             required_lpcd := inject_Z JJM_LPCD_STANDARD;
             gap_lpd := Py.round gap 0 |}.

Definition all_statuses (self : t) : list FHTCStatus.t := Dict.values self.

Definition below_target (self : t) (target_pct : Q)
  : Py.result (list FHTCStatus.t) :=
  Py.filterM (fun s => let* c := coverage_pct s in Py.Ok (c <? target_pct))
             (Dict.values self).

End JJMTracker.

Module GroundwaterMonitor.
Import GroundwaterLevel.

(** [self._records] *)
Definition t := list GroundwaterLevel.t.

Definition init : t := [].

Definition add (record : GroundwaterLevel.t) (self : t) : t :=
  self ++ [record].

(** The sort key [(r.year, r.season.value)] and the comparison of two
    such tuples: first components, then the labels as strings. *)
Definition key (r : GroundwaterLevel.t) : Z * string :=
  (year r, season_value (season r)).

Definition key_ltb (a b : Z * string) : bool :=
  if (fst a =? fst b)%Z then String.ltb (snd a) (snd b)
  else (fst a <? fst b)%Z.

Definition key_le (a b : GroundwaterLevel.t) : bool :=
  negb (key_ltb (key b) (key a)).

Definition by_panchayat (self : t) (pid : string) : list GroundwaterLevel.t :=
  Py.sorted key_le
    (filter (fun r => String.eqb (panchayat_id r) pid) self).

Definition latest (self : t) (pid : string) : option GroundwaterLevel.t :=
  let records := by_panchayat self pid in
  Py.last_opt records.

Definition year_le (a b : GroundwaterLevel.t) : bool :=
  negb (year b <? year a)%Z.

(** [recent[i]], on an index in range. *)
Definition item (l : list GroundwaterLevel.t) (i : nat) : Q :=
  match nth_error l i with
  | Some r => depth_meters r
  | None => 0
  end.

Definition declining_trend (self : t) (pid : string) (years : Z) : bool :=
  let records :=
    filter (fun r => String.eqb (panchayat_id r) pid
                     && season_eqb (season r) PRE_MONSOON) self in
  let records := Py.sorted year_le records in
  let recent :=
    if (Py.len records >=? years)%Z then Py.slice_from (- years) records
    else records in
  if (Py.len recent <? 2)%Z then false
  else
    forallb (fun i => item recent i >? item recent (i - 1))
            (seq 1 (List.length recent - 1)).

Definition categorize_level (depth : Q) : string :=
  if depth <? 2 then "very_shallow"
  else if depth <? 8 then "shallow"
  else if depth <? 20 then "moderate"
  else if depth <? 40 then "deep"
  else "very_deep".

Definition recharge_potential (self : t) (pid : string) : string :=
  let records := filter (fun r => String.eqb (panchayat_id r) pid) self in
  let pre := filter (fun r => season_eqb (season r) PRE_MONSOON) records in
  let post := filter (fun r => season_eqb (season r) POST_MONSOON) records in
  match pre, post with
  | p :: pre', q :: post' =>
      let latest_pre := Py.max_by year p pre' in
      let latest_post := Py.max_by year q post' in
      if negb (year latest_pre =? year latest_post)%Z
      then "insufficient_data"
      else
        let recovery := depth_meters latest_pre - depth_meters latest_post in
        if recovery >? 5 then "high"
        else if recovery >? 2 then "moderate"
        else if recovery >? 0 then "low"
        else "negligible"
  | _, _ => "insufficient_data"
  end.

End GroundwaterMonitor.

Module RainfallAnalyzer.
Import RainfallRecord.

(** [self._records] *)
Definition t := list RainfallRecord.t.

Definition init : t := [].

Definition add (record : RainfallRecord.t) (self : t) : t :=
  self ++ [record].

Definition matching (self : t) (pid : string) (y : Z) : list RainfallRecord.t :=
  filter (fun r => String.eqb (panchayat_id r) pid && (year r =? y)%Z) self.

Definition annual_total (self : t) (pid : string) (y : Z) : Q :=
  Py.sum (map rainfall_mm (matching self pid y)).

Definition annual_normal (self : t) (pid : string) (y : Z) : Q :=
  Py.sum (map normal_mm (matching self pid y)).

Definition annual_deviation_pct (self : t) (pid : string) (y : Z)
  : Py.result Q :=
  let normal := annual_normal self pid y in
  if normal =? 0 then Py.Ok 0
  else
    let actual := annual_total self pid y in
    let* q := Py.div (actual - normal) normal in
    Py.Ok (Py.round (q * 100) 1).

Definition drought_risk (self : t) (pid : string) (y : Z)
  : Py.result string :=
  let* dev := annual_deviation_pct self pid y in
  if dev <=? -60 then Py.Ok "severe_drought"
  else if dev <=? -40 then Py.Ok "moderate_drought"
  else if dev <=? -20 then Py.Ok "mild_drought"
  else Py.Ok "normal".

Definition flood_risk (self : t) (pid : string) (y : Z)
  : Py.result string :=
  let* dev := annual_deviation_pct self pid y in
  if dev >=? 60 then Py.Ok "high_flood_risk"
  else if dev >=? 30 then Py.Ok "moderate_flood_risk"
  else Py.Ok "normal".

Record performance := {
  actual_mm : Q;
  perf_normal_mm : Q;
  perf_deviation_pct : Q
}.

(** The [records] of [monsoon_performance]; [monsoon_months] is the set
    [{6, 7, 8, 9}]. *)
Definition monsoon_months : list Z := [6; 7; 8; 9]%Z.

Definition monsoon_records (self : t) (pid : string) (y : Z)
  : list RainfallRecord.t :=
  filter (fun r => String.eqb (panchayat_id r) pid && (year r =? y)%Z
                   && existsb (Z.eqb (month r)) monsoon_months) self.

Definition monsoon_performance (self : t) (pid : string) (y : Z)
  : Py.result performance :=
  let records := monsoon_records self pid y in
  let actual := Py.sum (map rainfall_mm records) in
  let normal := Py.sum (map normal_mm records) in
  let* deviation :=
    if normal >? 0 then
      let* q := Py.div (actual - normal) normal in Py.Ok (q * 100)
    else Py.Ok 0 in
  Py.Ok {| actual_mm := Py.round actual 1;
           perf_normal_mm := Py.round normal 1;
           perf_deviation_pct := Py.round deviation 1 |}.

End RainfallAnalyzer.

Module WaterBudgetPlanner.
Import WaterBudget.

Definition DOMESTIC_LPCD : Z := 55.
Definition LIVESTOCK_LPCD : Z := 30.
Definition IRRIGATION_MM_PER_HECTARE : Z := 500.

Definition estimate_demand (population livestock : Z) (irrigated_hectares : Q)
  : Py.result WaterBudget.t :=
  let domestic := inject_Z (population * DOMESTIC_LPCD) in
  let* agriculture :=
    Py.div (irrigated_hectares * inject_Z IRRIGATION_MM_PER_HECTARE * 1000)
           365 in
  let livestock_demand := inject_Z (livestock * LIVESTOCK_LPCD) in
  WaterBudget.validated
    {| panchayat_id := "";
       year := 0;
       total_demand_lpd :=
         Py.round (domestic + agriculture + livestock_demand) 0;
       total_supply_lpd := 0;
       domestic_demand_lpd := Py.round domestic 0;
       agriculture_demand_lpd :=
         Py.round (agriculture + livestock_demand) 0;
       industrial_demand_lpd := 0 |}.

Definition sustainability_index (budget : WaterBudget.t) : Py.result Q :=
  if total_demand_lpd budget =? 0 then Py.Ok 100
  else
    let* ratio := Py.div (total_supply_lpd budget) (total_demand_lpd budget) in
    Py.Ok (Py.round (Py.min 100 (ratio * 100)) 1).

End WaterBudgetPlanner.

Module AlertEngine.
Import Py.

(** [self._alert_counter] *)
Record t := { _alert_counter : N }.

Definition init : t := {| _alert_counter := 0 |}.

(** A method of the engine: it reads and writes the counter and may
    raise. *)
Definition M (A : Type) := t -> result (A * t).

Definition ret {A} (a : A) : M A := fun self => Ok (a, self).

Definition mbind {A B} (m : M A) (k : A -> M B) : M B :=
  fun self =>
    match m self with
    | Ok (a, self') => k a self'
    | Raise e => Raise e
    end.

Definition lift {A} (r : result A) : M A :=
  fun self =>
    match r with
    | Ok a => Ok (a, self)
    | Raise e => Raise e
    end.

Notation "x <- m ;; k" := (mbind m (fun x => k))
  (at level 61, m at next level, right associativity).

Definition _next_id : M string :=
  fun self =>
    let self := {| _alert_counter := _alert_counter self + 1 |} in
    Ok (("ALERT-" ++ fmt_04d (_alert_counter self))%string, self).

(** [WaterAlert(...)] with the defaults of the model for the fields the
    call leaves out. *)
Definition alert (id pid : string) (lvl : AlertLevel) (cat : string)
  (msg : fstring) (src date : string) : WaterAlert.t :=
  {| WaterAlert.alert_id := id;
     WaterAlert.panchayat_id := pid;
     WaterAlert.level := lvl;
     WaterAlert.category := cat;
     WaterAlert.message := msg;
     WaterAlert.source_id := src;
     WaterAlert.date := date;
     WaterAlert.is_active := true |}.

Definition grade_eqb (a b : WaterQualityGrade) : bool :=
  match a, b with
  | SAFE, SAFE | ACCEPTABLE, ACCEPTABLE | CONTAMINATED, CONTAMINATED
  | HAZARDOUS, HAZARDOUS => true
  | _, _ => false
  end.

Definition check_quality (report : WaterQualityReport.t)
  : M (list WaterAlert.t) :=
  let grade := WaterQualityAnalyzer.grade_report report in
  let alerts := [] in
  if grade_eqb grade HAZARDOUS then
    id <- _next_id ;;
    ret (alerts ++ [alert id "" EMERGENCY "water_quality"
           [Lit "HAZARDOUS water quality at source ";
            Str (WaterQualityReport.source_id report);
            Lit ". Do NOT consume."]
           (WaterQualityReport.source_id report)
           (WaterQualityReport.test_date report)])
  else if grade_eqb grade CONTAMINATED then
    id <- _next_id ;;
    ret (alerts ++ [alert id "" WARNING "water_quality"
           [Lit "Contaminated water at source ";
            Str (WaterQualityReport.source_id report);
            Lit ". Treatment required."]
           (WaterQualityReport.source_id report)
           (WaterQualityReport.test_date report)])
  else ret alerts.

Definition check_groundwater (record : GroundwaterLevel.t)
  : M (list WaterAlert.t) :=
  let depth := GroundwaterLevel.depth_meters record in
  let pid := GroundwaterLevel.panchayat_id record in
  let alerts := [] in
  alerts <-
    (if depth >? 40 then
       id <- _next_id ;;
       ret (alerts ++ [alert id pid CRITICAL "groundwater"
              [Lit "Groundwater critically deep: "; Num depth;
               Lit "m. Immediate conservation needed."] "" ""])
     else if depth >? 20 then
       id <- _next_id ;;
       ret (alerts ++ [alert id pid WARNING "groundwater"
              [Lit "Groundwater declining: "; Num depth; Lit "m depth."]
              "" ""])
     else ret alerts) ;;
  if GroundwaterLevel.is_declining record
     && (GroundwaterLevel.change_meters record >? 2) then
    id <- _next_id ;;
    ret (alerts ++ [alert id pid WARNING "groundwater_trend"
           [Lit "Groundwater dropped ";
            Num (GroundwaterLevel.change_meters record);
            Lit "m from last year."] "" ""])
  else ret alerts.

Definition check_supply (population : Z) (total_supply_lpd : Q)
  : M (list WaterAlert.t) :=
  let alerts := [] in
  if (population =? 0)%Z then ret alerts
  else
    lpcd <- lift (div total_supply_lpd (inject_Z population)) ;;
    if lpcd <? 27 then
      id <- _next_id ;;
      ret (alerts ++ [alert id "" EMERGENCY "supply"
             [Lit "Severe water scarcity: only "; NumFmt lpcd ".0f";
              Lit " LPCD (need "; Int JJM_LPCD_STANDARD; Lit ")."] "" ""])
    else if lpcd <? inject_Z JJM_LPCD_STANDARD then
      id <- _next_id ;;
      ret (alerts ++ [alert id "" WARNING "supply"
             [Lit "Water supply below JJM standard: "; NumFmt lpcd ".0f";
              Lit " LPCD (need "; Int JJM_LPCD_STANDARD; Lit ")."] "" ""])
    else ret alerts.

Definition check_rainfall (pid : string) (deviation_pct : Q)
  : M (list WaterAlert.t) :=
  let alerts := [] in
  if deviation_pct <=? -40 then
    id <- _next_id ;;
    ret (alerts ++ [alert id pid CRITICAL "drought"
           [Lit "Drought conditions: rainfall "; NumFmt deviation_pct ".0f";
            Lit "% below normal."] "" ""])
  else if deviation_pct >=? 60 then
    id <- _next_id ;;
    ret (alerts ++ [alert id pid CRITICAL "flood"
           [Lit "Flood risk: rainfall "; NumFmt deviation_pct ".0f";
            Lit "% above normal."] "" ""])
  else ret alerts.

(** A use of the engine: one of its four checks with its arguments. *)
Inductive call :=
| CheckQuality (report : WaterQualityReport.t)
| CheckGroundwater (record : GroundwaterLevel.t)
| CheckSupply (population : Z) (total_supply_lpd : Q)
| CheckRainfall (pid : string) (deviation_pct : Q).

Definition run_call (c : call) : M (list WaterAlert.t) :=
  match c with
  | CheckQuality r => check_quality r
  | CheckGroundwater r => check_groundwater r
  | CheckSupply p s => check_supply p s
  | CheckRainfall p d => check_rainfall p d
  end.

(** The alerts of a sequence of calls, in the order of emission. *)
Fixpoint run_calls (cs : list call) : M (list WaterAlert.t) :=
  match cs with
  | [] => ret []
  | c :: cs' =>
      a <- run_call c ;;
      b <- run_calls cs' ;;
      ret (a ++ b)
  end.

End AlertEngine.

(** * Properties *)

(** ** The comparisons of floats *)

Lemma ltb_true x y : (x <? y) = true <-> x < y.
Proof.
  unfold Py.ltb. rewrite negb_true_iff, <- not_true_iff_false, Qle_bool_iff.
  split; [apply Qnot_le_lt | apply Qlt_not_le].
Qed.

Lemma ltb_false x y : (x <? y) = false <-> y <= x.
Proof.
  unfold Py.ltb. rewrite negb_false_iff. apply Qle_bool_iff.
Qed.

Lemma leb_true x y : (x <=? y) = true <-> x <= y.
Proof. apply Qle_bool_iff. Qed.

Lemma leb_false x y : (x <=? y) = false <-> y < x.
Proof.
  unfold Py.leb. rewrite <- not_true_iff_false, Qle_bool_iff.
  split; [apply Qnot_le_lt | apply Qlt_not_le].
Qed.

Lemma gtb_true x y : (x >? y) = true <-> y < x.
Proof. apply ltb_true. Qed.

Lemma gtb_false x y : (x >? y) = false <-> x <= y.
Proof. apply ltb_false. Qed.

Lemma geb_true x y : (x >=? y) = true <-> y <= x.
Proof. apply leb_true. Qed.

Lemma geb_false x y : (x >=? y) = false <-> x < y.
Proof. apply leb_false. Qed.

Lemma eqb_true x y : (x =? y) = true <-> x == y.
Proof. apply Qeq_bool_iff. Qed.

Lemma eqb_false x y : (x =? y) = false <-> ~ x == y.
Proof.
  unfold Py.eqb. rewrite <- not_true_iff_false, Qeq_bool_iff. reflexivity.
Qed.

(** Turn every boolean comparison among the hypotheses into its
    proposition. *)
Ltac props :=
  repeat match goal with
  | H : Py.gtb _ _ = true |- _ => apply gtb_true in H
  | H : Py.gtb _ _ = false |- _ => apply gtb_false in H
  | H : Py.geb _ _ = true |- _ => apply geb_true in H
  | H : Py.geb _ _ = false |- _ => apply geb_false in H
  | H : Py.ltb _ _ = true |- _ => apply ltb_true in H
  | H : Py.ltb _ _ = false |- _ => apply ltb_false in H
  | H : Py.leb _ _ = true |- _ => apply leb_true in H
  | H : Py.leb _ _ = false |- _ => apply leb_false in H
  | H : Py.eqb _ _ = true |- _ => apply eqb_true in H
  | H : Py.eqb _ _ = false |- _ => apply eqb_false in H
  end.

(** Split on the comparison the goal branches on first. *)
Ltac branch :=
  match goal with
  | |- context [if ?c then _ else _] =>
      let E := fresh "E" in destruct c eqn:E
  end.

(** Settle the comparisons of the goal that linear arithmetic over the
    hypotheses decides. *)
Ltac settle :=
  repeat match goal with
  | |- context [Py.gtb ?a ?b] =>
      first [ rewrite (proj2 (gtb_false a b)) by lra
            | rewrite (proj2 (gtb_true a b)) by lra ]
  | |- context [Py.ltb ?a ?b] =>
      first [ rewrite (proj2 (ltb_false a b)) by lra
            | rewrite (proj2 (ltb_true a b)) by lra ]
  | |- context [Py.leb ?a ?b] =>
      first [ rewrite (proj2 (leb_false a b)) by lra
            | rewrite (proj2 (leb_true a b)) by lra ]
  | |- context [Py.geb ?a ?b] =>
      first [ rewrite (proj2 (geb_false a b)) by lra
            | rewrite (proj2 (geb_true a b)) by lra ]
  end.

(** ** Quality grading *)

Module QualityFacts.
Import WaterQualityReport BIS_LIMITS WaterQualityAnalyzer.

(** No rule of the grading sets a flag: every parameter is outside both
    the hazardous and the contaminated tier it has, and there is no
    coliform. *)
Definition no_flag (r : WaterQualityReport.t) : Prop :=
  6.5 <= ph r /\ ph r <= 8.5 /\ tds_ppm r <= 500 /\ turbidity_ntu r <= 5 /\
  fluoride_ppm r <= 1.0 /\ arsenic_ppb r <= 10 /\ iron_ppm r <= 1.0 /\
  nitrate_ppm r <= 45 /\ coliform_present r = false.

(** The four acceptable bounds the last test of the grading looks at. *)
Definition four_acceptable (r : WaterQualityReport.t) : Prop :=
  tds_ppm r <= 500 /\ turbidity_ntu r <= 1 /\ fluoride_ppm r <= 1.0 /\
  iron_ppm r <= 0.3.

(** Every parameter but chloride is within its acceptable bound (for pH,
    inside the range 6.5 to 8.5) and there is no coliform. *)
Definition others_acceptable (r : WaterQualityReport.t) : Prop :=
  6.5 <= ph r /\ ph r <= 8.5 /\ tds_ppm r <= 500 /\ turbidity_ntu r <= 1 /\
  fluoride_ppm r <= 1.0 /\ arsenic_ppb r <= 10 /\ iron_ppm r <= 0.3 /\
  nitrate_ppm r <= 45 /\ coliform_present r = false.

Definition all_acceptable (r : WaterQualityReport.t) : Prop :=
  others_acceptable r /\ chloride_ppm r <= 250.

Lemma others_acceptable_no_flag r : others_acceptable r -> no_flag r.
Proof.
  unfold others_acceptable, no_flag. intuition lra.
Qed.

Lemma others_acceptable_four r : others_acceptable r -> four_acceptable r.
Proof.
  unfold others_acceptable, four_acceptable. intuition.
Qed.

(** With no flag set the grading comes down to its last test. *)
Lemma grade_no_flag r :
  no_flag r ->
  grade_report r =
    if (tds_ppm r <=? tds_acceptable)
       && (turbidity_ntu r <=? turbidity_acceptable)
       && (fluoride_ppm r <=? fluoride_acceptable)
       && (iron_ppm r <=? iron_acceptable)
    then SAFE else ACCEPTABLE.
Proof.
  unfold no_flag. intros (H1 & H2 & H3 & H4 & H5 & H6 & H7 & H8 & H9).
  unfold grade_report.
  assert (A1 : (ph r <? 5.0) = false) by (apply ltb_false; lra).
  assert (A2 : (ph r >? 9.5) = false) by (apply gtb_false; lra).
  assert (A3 : (ph r <? ph_min) = false)
    by (apply ltb_false; unfold ph_min; lra).
  assert (A4 : (ph r >? ph_max) = false)
    by (apply gtb_false; unfold ph_max; lra).
  assert (A5 : (tds_ppm r >? tds_permissible) = false)
    by (apply gtb_false; unfold tds_permissible; lra).
  assert (A6 : (tds_ppm r >? tds_acceptable) = false)
    by (apply gtb_false; unfold tds_acceptable; lra).
  assert (A7 : (turbidity_ntu r >? turbidity_permissible) = false)
    by (apply gtb_false; unfold turbidity_permissible; lra).
  assert (A8 : (fluoride_ppm r >? fluoride_permissible) = false)
    by (apply gtb_false; unfold fluoride_permissible; lra).
  assert (A9 : (fluoride_ppm r >? fluoride_acceptable) = false)
    by (apply gtb_false; unfold fluoride_acceptable; lra).
  assert (A10 : (arsenic_ppb r >? arsenic_max_ppb) = false)
    by (apply gtb_false; unfold arsenic_max_ppb; lra).
  assert (A11 : (iron_ppm r >? iron_permissible) = false)
    by (apply gtb_false; unfold iron_permissible; lra).
  assert (A12 : (nitrate_ppm r >? nitrate_max) = false)
    by (apply gtb_false; unfold nitrate_max; lra).
  rewrite A1, A2, A3, A4, A5, A6, A7, A8, A9, A10, A11, A12, H9.
  reflexivity.
Qed.

Lemma four_acceptable_test r :
  (tds_ppm r <=? tds_acceptable)
  && (turbidity_ntu r <=? turbidity_acceptable)
  && (fluoride_ppm r <=? fluoride_acceptable)
  && (iron_ppm r <=? iron_acceptable) = true <-> four_acceptable r.
Proof.
  unfold four_acceptable.
  rewrite !andb_true_iff, !leb_true.
  unfold tds_acceptable, turbidity_acceptable, fluoride_acceptable,
    iron_acceptable.
  tauto.
Qed.

Definition mk (p tds turb chl fl ars fe nit : Q) (coli : bool)
  : WaterQualityReport.t :=
  {| report_id := "R1"; source_id := "S1"; test_date := "2024-01-15";
     ph := p; tds_ppm := tds; turbidity_ntu := turb; chloride_ppm := chl;
     fluoride_ppm := fl; arsenic_ppb := ars; iron_ppm := fe;
     nitrate_ppm := nit; coliform_present := coli; grade := SAFE |}.

(** C1: a report with coliform present is graded hazardous, whatever its
    other parameters are. *)
Theorem coliform_grade_hazardous (r : WaterQualityReport.t) :
  coliform_present r = true -> grade_report r = HAZARDOUS.
Proof.
  intros H. unfold grade_report. rewrite H.
  repeat branch; reflexivity.
Qed.

Lemma coliform_grade_hazardous_witness :
  grade_report (mk 7.2 350 0.5 100 0.5 1 0.1 20 true) = HAZARDOUS.
Proof.
  apply (coliform_grade_hazardous (mk 7.2 350 0.5 100 0.5 1 0.1 20 true)).
  reflexivity.
Defined.

(** C2: on a report where no rule sets the hazardous or the contaminated
    flag and coliform is absent, the grade is safe exactly when TDS <= 500,
    turbidity <= 1, fluoride <= 1.0 and iron <= 0.3 all hold, and it is
    acceptable otherwise; and a report with every parameter within its
    acceptable bound (pH inside 6.5 to 8.5) and no coliform is graded
    safe. *)
Theorem grade_safe_or_acceptable (r : WaterQualityReport.t) :
  (no_flag r ->
     (grade_report r = SAFE <-> four_acceptable r) /\
     (~ four_acceptable r -> grade_report r = ACCEPTABLE)) /\
  (all_acceptable r -> grade_report r = SAFE).
Proof.
  assert (G : no_flag r ->
     (grade_report r = SAFE <-> four_acceptable r) /\
     (~ four_acceptable r -> grade_report r = ACCEPTABLE)).
  { intros N. rewrite (grade_no_flag N).
    pose proof (four_acceptable_test r) as T.
    destruct ((tds_ppm r <=? tds_acceptable)
              && (turbidity_ntu r <=? turbidity_acceptable)
              && (fluoride_ppm r <=? fluoride_acceptable)
              && (iron_ppm r <=? iron_acceptable)).
    - split; [tauto | intros F; exfalso; apply F; tauto].
    - split; [split; [discriminate | intros F; apply T in F; discriminate]
             | reflexivity]. }
  split; [exact G |].
  intros [A _].
  apply G; [apply others_acceptable_no_flag | apply others_acceptable_four];
    exact A.
Qed.

Definition clean : WaterQualityReport.t := mk 7.2 350 0.5 100 0.5 1 0.1 20 false.
Definition turbid : WaterQualityReport.t := mk 7.2 350 3 100 0.5 1 0.1 20 false.
Definition salty : WaterQualityReport.t := mk 7.2 350 0.5 300 0.5 1 0.1 20 false.

Lemma grade_safe_or_acceptable_witness :
  (all_acceptable clean /\ grade_report clean = SAFE) /\
  (no_flag turbid /\ ~ four_acceptable turbid /\
   grade_report turbid = ACCEPTABLE).
Proof.
  assert (A : all_acceptable clean).
  { unfold all_acceptable, others_acceptable; simpl.
    repeat split; try reflexivity; lra. }
  assert (N : no_flag turbid).
  { unfold no_flag; simpl. repeat split; try reflexivity; lra. }
  assert (F : ~ four_acceptable turbid).
  { unfold four_acceptable; simpl. intros (_ & H & _). lra. }
  split; split.
  - exact A.
  - exact (proj2 (grade_safe_or_acceptable clean) A).
  - exact N.
  - split; [exact F |].
    exact (proj2 (proj1 (grade_safe_or_acceptable turbid) N) F).
Defined.

(** C10: a report with chloride above 250, every other parameter within
    its acceptable bound and no coliform is graded safe, and its list of
    contaminants is the chloride issue alone; such a report exists, so a
    safe grade does not mean an empty list of contaminants. *)
Theorem safe_grade_with_chloride_issue :
  (forall r : WaterQualityReport.t,
      250 < chloride_ppm r -> others_acceptable r ->
      grade_report r = SAFE /\
      identify_contaminants r =
        [[Py.Lit "Chloride: "; Py.Num (chloride_ppm r);
          Py.Lit " ppm (limit "; Py.Num chloride_acceptable; Py.Lit ")"]]) /\
  (exists r : WaterQualityReport.t,
      WaterQualityReport.valid r /\ grade_report r = SAFE /\
      identify_contaminants r <> []).
Proof.
  split.
  - intros r C O. split.
    + rewrite (grade_no_flag (others_acceptable_no_flag O)).
      now rewrite (proj2 (four_acceptable_test r) (others_acceptable_four O)).
    + destruct O as (H1 & H2 & H3 & H4 & H5 & H6 & H7 & H8 & H9).
      unfold identify_contaminants, append_if. rewrite H9.
      unfold ph_min, ph_max, tds_acceptable, turbidity_acceptable,
        fluoride_acceptable, arsenic_max_ppb, iron_acceptable, nitrate_max.
      settle. unfold chloride_acceptable at 1. settle. reflexivity.
  - exists salty. split; [| split].
    + unfold WaterQualityReport.valid; simpl. repeat split; lra.
    + reflexivity.
    + discriminate.
Qed.

Lemma safe_grade_with_chloride_issue_witness :
  250 < chloride_ppm salty /\ others_acceptable salty /\
  grade_report salty = SAFE /\ identify_contaminants salty <> [].
Proof.
  assert (C : 250 < chloride_ppm salty) by (simpl; lra).
  assert (O : others_acceptable salty).
  { unfold others_acceptable; simpl. repeat split; try reflexivity; lra. }
  destruct (proj1 safe_grade_with_chloride_issue salty C O) as [G I].
  split; [exact C | split; [exact O | split; [exact G |]]].
  rewrite I. discriminate.
Defined.

End QualityFacts.

(** ** The source registry *)

Module DictFacts.
Section Values.
Context {V : Type}.
Implicit Types (d : Dict.t V) (k : string) (v : V) (f : V -> bool).

Lemma get_set_eq k v d : Dict.get k (Dict.set k v d) = Some v.
Proof.
  induction d as [| [k' v'] d IH]; simpl.
  - now rewrite String.eqb_refl.
  - destruct (String.eqb k' k) eqn:E; simpl.
    + now rewrite String.eqb_refl.
    + now rewrite E.
Qed.

Lemma get_set_neq k k' v d :
  k <> k' -> Dict.get k' (Dict.set k v d) = Dict.get k' d.
Proof.
  intros N. induction d as [| [k0 v0] d IH]; simpl.
  - destruct (String.eqb_spec k k'); [contradiction | reflexivity].
  - destruct (String.eqb_spec k0 k) as [-> | N0]; simpl.
    + destruct (String.eqb_spec k k'); [contradiction | reflexivity].
    + now rewrite IH.
Qed.

(** A new key goes to the end. *)
Lemma values_set_new k v d :
  Dict.get k d = None -> Dict.values (Dict.set k v d) = Dict.values d ++ [v].
Proof.
  unfold Dict.values.
  induction d as [| [k' v'] d IH]; simpl; intros H.
  - reflexivity.
  - destruct (String.eqb k' k); [discriminate |].
    simpl. now rewrite IH.
Qed.

(** Writing a value [f] rejects changes what [f] keeps of the values only
    if it overwrites a value [f] kept. *)
Lemma filter_values_set f k v d :
  f v = false ->
  (forall old, Dict.get k d = Some old -> f old = false) ->
  filter f (Dict.values (Dict.set k v d)) = filter f (Dict.values d).
Proof.
  unfold Dict.values. intros Fv.
  induction d as [| [k' v'] d IH]; simpl; intros Old.
  - now rewrite Fv.
  - destruct (String.eqb k' k) eqn:E; simpl.
    + rewrite Fv, (Old v' eq_refl). reflexivity.
    + rewrite IH; [reflexivity | exact Old].
Qed.

End Values.
End DictFacts.

Lemma filter_filter_and {A} (f g : A -> bool) (l : list A) :
  filter g (filter f l) = filter (fun x => f x && g x) l.
Proof.
  induction l as [| x l IH]; simpl; [reflexivity |].
  destruct (f x); simpl; [destruct (g x) |]; now rewrite IH.
Qed.

Module SourceFacts.
Import WaterSource SourceManager.

(** A functional source of the panchayat. *)
Definition supplies (pid : string) (s : WaterSource.t) : bool :=
  String.eqb (panchayat_id s) pid && is_functional s.

Lemma functional_sources_filter self pid :
  functional_sources self pid = filter (supplies pid) (Dict.values self).
Proof. apply filter_filter_and. Qed.

Definition src (id pid : string) (cap yld : Q) (ok : bool) : WaterSource.t :=
  {| source_id := id; panchayat_id := pid; name := "Village Borewell";
     source_type := BOREWELL; latitude := 20.5; longitude := 78.9;
     capacity_liters_per_day := cap; current_yield_lpd := yld;
     depth_meters := 60; is_functional := ok; last_tested_date := "" |}.

Definition one_pump : SourceManager.t :=
  register (src "S1" "GP001" 10000 5000 true) init.

Definition broken : WaterSource.t := src "S1" "GP001" 10000 3000 false.
Definition spare : WaterSource.t := src "S2" "GP001" 10000 3000 false.

(** C5, as stated, fails: registering a non-functional source under the id
    of a functional source of the panchayat replaces that source, and the
    total drops from 5000 to 0. *)
Lemma nonfunctional_overwrite_changes_total :
  is_functional broken = false /\ 0 < current_yield_lpd broken /\
  total_supply_lpd one_pump "GP001" == 5000 /\
  total_supply_lpd (register broken one_pump) "GP001" == 0 /\
  ~ total_supply_lpd (register broken one_pump) "GP001"
      == total_supply_lpd one_pump "GP001".
Proof.
  repeat split; try reflexivity.
  intros H. vm_compute in H. discriminate.
Qed.

(** C5, amended: the total supply of a panchayat is the sum of the current
    yields of the registered sources that belong to it and are functional;
    and registering a non-functional source leaves that total unchanged
    provided its id is not the id of a registered source that is a
    functional source of the panchayat. *)
Theorem total_supply_functional_only
  (self : SourceManager.t) (pid : string) (s : WaterSource.t) :
  total_supply_lpd self pid =
    Py.sum (map current_yield_lpd (filter (supplies pid) (Dict.values self)))
  /\
  (is_functional s = false ->
   (forall old, get (source_id s) self = Some old -> supplies pid old = false) ->
   total_supply_lpd (register s self) pid = total_supply_lpd self pid).
Proof.
  split.
  - unfold total_supply_lpd. now rewrite functional_sources_filter.
  - intros F Old. unfold total_supply_lpd.
    rewrite !functional_sources_filter. unfold register.
    rewrite DictFacts.filter_values_set; [reflexivity | | exact Old].
    unfold supplies. rewrite F. apply andb_false_r.
Qed.

Lemma total_supply_functional_only_witness :
  is_functional spare = false /\ 0 < current_yield_lpd spare /\
  total_supply_lpd (register spare one_pump) "GP001"
    = total_supply_lpd one_pump "GP001".
Proof.
  split; [reflexivity | split; [reflexivity |]].
  apply (proj2 (total_supply_functional_only one_pump "GP001" spare)).
  - reflexivity.
  - intros old H. vm_compute in H. discriminate.
Defined.

End SourceFacts.

(** ** Divisions *)

Module DivisionFacts.
Import Py.

(** The operation returns: it does not raise. *)
Definition returns {A} (r : result A) : Prop := exists a, r = Ok a.

Lemma div_returns x y : (y =? 0) = false -> div x y = Ok (x / y).
Proof. intros H. unfold div. now rewrite H. Qed.

Lemma eqb_inject_Z z : (inject_Z z =? 0) = (z =? 0)%Z.
Proof.
  unfold eqb, Qeq_bool, inject_Z; simpl.
  now rewrite Z.mul_1_r.
Qed.

Lemma gtb_nonzero x : (x >? 0) = true -> (x =? 0) = false.
Proof.
  intros H. apply gtb_true in H. apply eqb_false. intros E. lra.
Qed.

Lemma mapM_returns {A B} (f : A -> result B) (l : list A) :
  (forall x, returns (f x)) ->
  exists ys, mapM f l = Ok ys /\ List.length ys = List.length l.
Proof.
  intros F. induction l as [| x l (ys & E & L)]; simpl.
  - now exists [].
  - destruct (F x) as [y Ey]. rewrite Ey, E. simpl.
    exists (y :: ys). simpl. now rewrite L.
Qed.

Lemma yield_pct_returns s : returns (WaterSource.yield_pct s).
Proof.
  unfold WaterSource.yield_pct.
  destruct (WaterSource.capacity_liters_per_day s =? 0) eqn:E.
  - now eexists.
  - rewrite (div_returns _ _ E). now eexists.
Qed.

Lemma coverage_pct_returns s : returns (FHTCStatus.coverage_pct s).
Proof.
  unfold FHTCStatus.coverage_pct.
  destruct (FHTCStatus.total_households s =? 0)%Z eqn:E.
  - now eexists.
  - rewrite div_returns by now rewrite eqb_inject_Z. now eexists.
Qed.

Lemma functional_pct_returns s : returns (FHTCStatus.functional_pct s).
Proof.
  unfold FHTCStatus.functional_pct.
  destruct (FHTCStatus.fhtc_provided s =? 0)%Z eqn:E.
  - now eexists.
  - rewrite div_returns by now rewrite eqb_inject_Z. now eexists.
Qed.

Lemma deviation_pct_returns r : returns (RainfallRecord.deviation_pct r).
Proof.
  unfold RainfallRecord.deviation_pct.
  destruct (RainfallRecord.normal_mm r =? 0) eqn:E.
  - now eexists.
  - rewrite (div_returns _ _ E). now eexists.
Qed.

Lemma len_nonzero {A} (x : A) (l : list A) :
  (inject_Z (len (x :: l)) =? 0) = false.
Proof.
  rewrite eqb_inject_Z. unfold len. simpl List.length.
  apply Z.eqb_neq. lia.
Qed.

Lemma coverage_summary_returns self : returns (JJMTracker.coverage_summary self).
Proof.
  unfold JJMTracker.coverage_summary.
  destruct self as [| kv self]; [now eexists |].
  destruct (mapM_returns FHTCStatus.coverage_pct (Dict.values (kv :: self))
              coverage_pct_returns) as (cs & Ec & Lc).
  rewrite Ec. cbn [bind].
  destruct (mapM_returns FHTCStatus.functional_pct
              (filter (fun s => (FHTCStatus.fhtc_provided s >? 0)%Z)
                 (Dict.values (kv :: self)))
              functional_pct_returns) as (fs & Ef & _).
  rewrite Ef. cbn [bind].
  destruct cs as [| c cs]; [discriminate |].
  rewrite (div_returns _ _ (len_nonzero c cs)). cbn [bind].
  destruct fs as [| f fs]; cbn [bind]; [now eexists |].
  rewrite (div_returns _ _ (len_nonzero f fs)). now eexists.
Qed.

Lemma lpcd_check_returns pid population supply :
  returns (JJMTracker.lpcd_check pid population supply).
Proof.
  unfold JJMTracker.lpcd_check.
  destruct (population =? 0)%Z eqn:E.
  - now eexists.
  - rewrite div_returns by now rewrite eqb_inject_Z. now eexists.
Qed.

Lemma annual_deviation_pct_returns self pid y :
  returns (RainfallAnalyzer.annual_deviation_pct self pid y).
Proof.
  unfold RainfallAnalyzer.annual_deviation_pct.
  destruct (RainfallAnalyzer.annual_normal self pid y =? 0) eqn:E.
  - now eexists.
  - rewrite (div_returns _ _ E). now eexists.
Qed.

Lemma monsoon_performance_returns self pid y :
  returns (RainfallAnalyzer.monsoon_performance self pid y).
Proof.
  unfold RainfallAnalyzer.monsoon_performance.
  match goal with |- context [if ?c then _ else _] => destruct c eqn:E end.
  - rewrite (div_returns _ _ (gtb_nonzero _ E)). now eexists.
  - now eexists.
Qed.

(** The operation may raise, but not for a division. *)
Definition no_division_error {A} (r : result A) : Prop :=
  r <> Raise ZeroDivisionError.

Lemma estimate_demand_divides population livestock hectares :
  no_division_error
    (WaterBudgetPlanner.estimate_demand population livestock hectares).
Proof.
  unfold no_division_error, WaterBudgetPlanner.estimate_demand.
  rewrite div_returns by reflexivity. cbn [bind].
  unfold WaterBudget.validated. branch; discriminate.
Qed.

(** Without a connection provided anywhere, there is no functional
    percentage to average. *)
Lemma coverage_summary_none_provided self :
  Forall (fun s => (FHTCStatus.fhtc_provided s <= 0)%Z) (Dict.values self) ->
  exists c,
    JJMTracker.coverage_summary self
    = Ok {| JJMTracker.avg_coverage_pct := c;
            JJMTracker.avg_functional_pct := 0 |}.
Proof.
  intros N.
  assert (E : filter (fun s => (FHTCStatus.fhtc_provided s >? 0)%Z)
                (Dict.values self) = []).
  { induction N as [| s l H F IH]; simpl; [reflexivity |].
    destruct (Z.gtb_spec (FHTCStatus.fhtc_provided s) 0); [lia | exact IH]. }
  unfold JJMTracker.coverage_summary.
  destruct self as [| kv self]; [now eexists |].
  destruct (mapM_returns FHTCStatus.coverage_pct (Dict.values (kv :: self))
              coverage_pct_returns) as (cs & Ec & Lc).
  rewrite Ec, E. cbn [mapM bind].
  destruct cs as [| c cs]; [discriminate |].
  rewrite (div_returns _ _ (len_nonzero c cs)). cbn [bind]. now eexists.
Qed.

Lemma sustainability_index_returns b :
  returns (WaterBudgetPlanner.sustainability_index b).
Proof.
  unfold WaterBudgetPlanner.sustainability_index.
  destruct (WaterBudget.total_demand_lpd b =? 0) eqn:E.
  - now eexists.
  - rewrite (div_returns _ _ E). now eexists.
Qed.

Lemma check_supply_returns population supply e :
  returns (AlertEngine.check_supply population supply e).
Proof.
  unfold AlertEngine.check_supply.
  destruct (population =? 0)%Z eqn:E; [now eexists |].
  unfold AlertEngine.mbind, AlertEngine.lift.
  rewrite div_returns by now rewrite eqb_inject_Z.
  repeat branch; now eexists.
Qed.

Definition idle : WaterBudget.t :=
  {| WaterBudget.panchayat_id := "GP001"; WaterBudget.year := 2024;
     WaterBudget.total_demand_lpd := 0; WaterBudget.total_supply_lpd := 5000;
     WaterBudget.domestic_demand_lpd := 0;
     WaterBudget.agriculture_demand_lpd := 0;
     WaterBudget.industrial_demand_lpd := 0 |}.

(** C6, as stated, fails: [sustainability_index] divides by the total
    demand, which can be zero, and its guard yields 100.0, not 0. *)
Lemma zero_demand_yields_100 :
  WaterBudget.valid idle /\ WaterBudget.total_demand_lpd idle == 0 /\
  WaterBudgetPlanner.sustainability_index idle = Ok 100 /\ ~ 100 == 0.
Proof.
  split; [| split; [reflexivity | split; [reflexivity | discriminate]]].
  unfold WaterBudget.valid; simpl. repeat split; lra.
Qed.

Definition zero_lpcd : JJMTracker.lpcd :=
  {| JJMTracker.actual_lpcd := 0; JJMTracker.required_lpcd := 55;
     JJMTracker.gap_lpd := 0 |}.

(** C6, amended: every division of the core is guarded and none can raise
    a division error. On a zero denominator the result is 0 for
    [yield_pct], [coverage_pct], [functional_pct], [deviation_pct],
    [lpcd_check] (with [required_lpcd] 55), [annual_deviation_pct] and the
    deviation of [monsoon_performance]; [coverage_summary] gives 0 for
    both averages on an empty tracker and 0 for the functional average
    when no tracked unit has a connection provided; the result is 100 for
    [sustainability_index], and [check_supply] emits no alert.
    [estimate_demand] divides by the constant 365: it can raise when a
    demand is negative, but not for a division. *)
Theorem divisions_guarded :
  (forall s, returns (WaterSource.yield_pct s) /\
     (WaterSource.capacity_liters_per_day s == 0 ->
      WaterSource.yield_pct s = Ok 0)) /\
  (forall pid population supply,
     returns (JJMTracker.lpcd_check pid population supply) /\
     (population = 0%Z ->
      JJMTracker.lpcd_check pid population supply = Ok zero_lpcd)) /\
  (forall self pid y,
     returns (RainfallAnalyzer.annual_deviation_pct self pid y) /\
     (RainfallAnalyzer.annual_normal self pid y == 0 ->
      RainfallAnalyzer.annual_deviation_pct self pid y = Ok 0)) /\
  (forall s, returns (FHTCStatus.coverage_pct s) /\
     (FHTCStatus.total_households s = 0%Z ->
      FHTCStatus.coverage_pct s = Ok 0)) /\
  (forall s, returns (FHTCStatus.functional_pct s) /\
     (FHTCStatus.fhtc_provided s = 0%Z ->
      FHTCStatus.functional_pct s = Ok 0)) /\
  (forall r, returns (RainfallRecord.deviation_pct r) /\
     (RainfallRecord.normal_mm r == 0 ->
      RainfallRecord.deviation_pct r = Ok 0)) /\
  (forall self, returns (JJMTracker.coverage_summary self) /\
     (self = [] ->
      JJMTracker.coverage_summary self =
        Ok {| JJMTracker.avg_coverage_pct := 0;
              JJMTracker.avg_functional_pct := 0 |}) /\
     (Forall (fun s => (FHTCStatus.fhtc_provided s <= 0)%Z)
             (Dict.values self) ->
      exists c,
        JJMTracker.coverage_summary self =
          Ok {| JJMTracker.avg_coverage_pct := c;
                JJMTracker.avg_functional_pct := 0 |})) /\
  (forall self pid y,
     exists p, RainfallAnalyzer.monsoon_performance self pid y = Ok p /\
     (sum (map RainfallRecord.normal_mm
                (RainfallAnalyzer.monsoon_records self pid y)) == 0 ->
      RainfallAnalyzer.perf_deviation_pct p == 0)) /\
  (forall population livestock hectares,
     no_division_error
       (WaterBudgetPlanner.estimate_demand population livestock
          hectares)) /\
  (forall b, returns (WaterBudgetPlanner.sustainability_index b) /\
     (WaterBudget.total_demand_lpd b == 0 ->
      WaterBudgetPlanner.sustainability_index b = Ok 100)) /\
  (forall population supply e,
     returns (AlertEngine.check_supply population supply e) /\
     (population = 0%Z ->
      AlertEngine.check_supply population supply e = Ok ([], e))).
Proof.
  repeat apply conj.
  - intros s. split; [apply yield_pct_returns |].
    intros H. unfold WaterSource.yield_pct.
    now rewrite (proj2 (eqb_true _ _) H).
  - intros pid population supply. split; [apply lpcd_check_returns |].
    intros ->. reflexivity.
  - intros self pid y. split; [apply annual_deviation_pct_returns |].
    intros H. unfold RainfallAnalyzer.annual_deviation_pct.
    now rewrite (proj2 (eqb_true _ _) H).
  - intros s. split; [apply coverage_pct_returns |].
    intros H. unfold FHTCStatus.coverage_pct. now rewrite H.
  - intros s. split; [apply functional_pct_returns |].
    intros H. unfold FHTCStatus.functional_pct. now rewrite H.
  - intros r. split; [apply deviation_pct_returns |].
    intros H. unfold RainfallRecord.deviation_pct.
    now rewrite (proj2 (eqb_true _ _) H).
  - intros self. split; [apply coverage_summary_returns |].
    split; [intros ->; reflexivity | apply coverage_summary_none_provided].
  - intros self pid y. unfold RainfallAnalyzer.monsoon_performance.
    branch.
    + rewrite (div_returns _ _ (gtb_nonzero _ E)). cbn [bind].
      eexists. split; [reflexivity |].
      intros H. apply gtb_true in E. lra.
    + eexists. split; [reflexivity |]. intros _. reflexivity.
  - apply estimate_demand_divides.
  - intros b. split; [apply sustainability_index_returns |].
    intros H. unfold WaterBudgetPlanner.sustainability_index.
    now rewrite (proj2 (eqb_true _ _) H).
  - intros population supply e. split; [apply check_supply_returns |].
    intros ->. reflexivity.
Qed.

Definition dry_well : WaterSource.t :=
  SourceFacts.src "S3" "GP001" 0 0 true.

Definition unconnected : JJMTracker.t :=
  JJMTracker.update
    {| FHTCStatus.panchayat_id := "GP001";
       FHTCStatus.panchayat_name := "Rampur";
       FHTCStatus.total_households := 500; FHTCStatus.fhtc_provided := 0;
       FHTCStatus.fhtc_functional := 0; FHTCStatus.target_date := "";
       FHTCStatus.report_date := "" |}
    JJMTracker.init.

Lemma divisions_guarded_witness :
  WaterSource.capacity_liters_per_day dry_well == 0 /\
  WaterSource.yield_pct dry_well = Ok 0 /\
  JJMTracker.lpcd_check "GP001" 0 5000 = Ok zero_lpcd /\
  RainfallAnalyzer.annual_deviation_pct [] "GP001" 2024 = Ok 0 /\
  WaterBudgetPlanner.sustainability_index idle = Ok 100 /\
  exists c,
    JJMTracker.coverage_summary unconnected
    = Ok {| JJMTracker.avg_coverage_pct := c;
            JJMTracker.avg_functional_pct := 0 |}.
Proof.
  destruct divisions_guarded
    as (Y & L & A & _ & _ & _ & C & _ & _ & S & _).
  split; [reflexivity |].
  split; [apply (proj2 (Y dry_well)); reflexivity |].
  split; [apply (proj2 (L "GP001" 0%Z 5000)); reflexivity |].
  split; [apply (proj2 (A [] "GP001" 2024%Z)); reflexivity |].
  split; [apply (proj2 (S idle)); reflexivity |].
  apply (proj2 (proj2 (C unconnected))).
  repeat constructor. simpl. lia.
Defined.

End DivisionFacts.

(** ** The stable sort *)

Section Sorting.
Context {A : Type} (le : A -> A -> bool).

Lemma insert_perm x l : Permutation (Py.insert le x l) (x :: l).
Proof.
  induction l as [| y l IH]; simpl.
  - apply Permutation_refl.
  - destruct (le x y).
    + apply Permutation_refl.
    + apply perm_trans with (y :: x :: l).
      * now apply perm_skip.
      * apply perm_swap.
Qed.

Lemma sorted_perm l : Permutation (Py.sorted le l) l.
Proof.
  induction l as [| x l IH]; simpl.
  - apply perm_nil.
  - apply perm_trans with (x :: Py.sorted le l).
    + apply insert_perm.
    + now apply perm_skip.
Qed.

Lemma sorted_length l : List.length (Py.sorted le l) = List.length l.
Proof. apply Permutation_length, sorted_perm. Qed.

(** Elements that the order does not tell apart keep their relative
    position. *)
Lemma filter_insert (p : A -> bool) x l :
  (forall y, In y l -> p x = true -> p y = true -> le x y = true) ->
  filter p (Py.insert le x l) = filter p (x :: l).
Proof.
  induction l as [| y l IH]; simpl; intros H; [reflexivity |].
  destruct (le x y) eqn:E; [reflexivity |].
  simpl. rewrite IH by (intros z Hz; apply H; now right).
  simpl. destruct (p x) eqn:Px; [| reflexivity].
  destruct (p y) eqn:Py; [| reflexivity].
  rewrite (H y) in E by auto. discriminate.
Qed.

Lemma sorted_stable (p : A -> bool) l :
  (forall x y, p x = true -> p y = true -> le x y = true) ->
  filter p (Py.sorted le l) = filter p l.
Proof.
  intros H. induction l as [| x l IH]; simpl; [reflexivity |].
  rewrite filter_insert by (intros y _; apply H).
  simpl. now rewrite IH.
Qed.

Hypothesis le_total : forall a b, le a b = false -> le b a = true.
Hypothesis le_trans :
  forall a b c, le a b = true -> le b c = true -> le a c = true.

Lemma insert_sorted x l :
  StronglySorted (fun a b => le a b = true) l ->
  StronglySorted (fun a b => le a b = true) (Py.insert le x l).
Proof.
  induction 1 as [| y l S IH F]; simpl.
  - constructor; constructor.
  - destruct (le x y) eqn:E.
    + constructor; [now constructor |].
      constructor; [exact E |].
      eapply Forall_impl; [| exact F].
      intros z Hz. now apply le_trans with y.
    + constructor; [exact IH |].
      apply (Permutation_Forall (Permutation_sym (insert_perm x l))).
      constructor; [now apply le_total | exact F].
Qed.

Lemma sorted_sorted l :
  StronglySorted (fun a b => le a b = true) (Py.sorted le l).
Proof.
  induction l as [| x l IH]; simpl.
  - constructor.
  - now apply insert_sorted.
Qed.

End Sorting.

Lemma StronglySorted_impl {A} (R R' : A -> A -> Prop) (l : list A) :
  (forall a b, R a b -> R' a b) -> StronglySorted R l -> StronglySorted R' l.
Proof.
  intros H. induction 1 as [| x l S IH F]; constructor; [exact IH |].
  eapply Forall_impl; [| exact F]. intros b. apply H.
Qed.

Lemma last_opt_snoc {A} (l : list A) (x : A) : Py.last_opt (l ++ [x]) = Some x.
Proof. unfold Py.last_opt. now rewrite rev_unit. Qed.

(** ** Groundwater *)

Module GroundwaterFacts.
Import GroundwaterLevel GroundwaterMonitor.

(** The order of the sort keys [(year, label)]: years first, then the
    labels as strings. *)
Definition key_order (a b : GroundwaterLevel.t) : Prop :=
  (year a < year b)%Z \/
  (year a = year b /\
   String.leb (season_value (season a)) (season_value (season b)) = true).

Ltac by_seasons :=
  unfold key_le, key_ltb, key; simpl;
  repeat match goal with
  | |- context [season ?r] => destruct (season r); simpl
  end;
  repeat match goal with
  | |- context [(?a =? ?b)%Z] => destruct (Z.eqb_spec a b); simpl
  | |- context [(?a <? ?b)%Z] => destruct (Z.ltb_spec a b); simpl
  end;
  try reflexivity; try discriminate; try lia.

Lemma key_le_total a b : key_le a b = false -> key_le b a = true.
Proof. by_seasons. Qed.

Lemma key_le_trans a b c :
  key_le a b = true -> key_le b c = true -> key_le a c = true.
Proof. by_seasons. Qed.

Lemma key_le_order a b : key_le a b = true -> key_order a b.
Proof.
  unfold key_order.
  destruct (Z.lt_total (year a) (year b)) as [L | [E | G]].
  - now left.
  - intros H. right. split; [exact E |]. revert H.
    unfold key_le, key_ltb, key; simpl.
    rewrite E, Z.eqb_refl.
    destruct (season a), (season b); simpl; try reflexivity; discriminate.
  - unfold key_le, key_ltb, key; simpl.
    destruct (Z.eqb_spec (year b) (year a)); [lia |].
    destruct (Z.ltb_spec (year b) (year a)); [discriminate | lia].
Qed.

Lemma year_le_total a b : year_le a b = false -> year_le b a = true.
Proof.
  unfold year_le. rewrite negb_false_iff, negb_true_iff.
  rewrite Z.ltb_lt, Z.ltb_ge. lia.
Qed.

Lemma year_le_trans a b c :
  year_le a b = true -> year_le b c = true -> year_le a c = true.
Proof.
  unfold year_le. rewrite !negb_true_iff, !Z.ltb_ge. lia.
Qed.

Definition gw (pid : string) (s : SeasonType) (y : Z) (d prev : Q)
  : GroundwaterLevel.t :=
  {| panchayat_id := pid; season := s; year := y; depth_meters := d;
     previous_year_depth := prev |}.

(** The four seasons of 2024 in calendar order, and the months before
    the winter reading. *)
Definition calendar_2024 : GroundwaterMonitor.t :=
  add (gw "GP001" WINTER 2024 9 8)
    (add (gw "GP001" POST_MONSOON 2024 6 7)
      (add (gw "GP001" MONSOON 2024 7 9)
        (add (gw "GP001" PRE_MONSOON 2024 12 10) init))).

Definition until_autumn_2024 : GroundwaterMonitor.t :=
  add (gw "GP001" POST_MONSOON 2024 6 7)
    (add (gw "GP001" MONSOON 2024 7 9)
      (add (gw "GP001" PRE_MONSOON 2024 12 10) init)).

(** C4: [by_panchayat] returns the records of the panchayat, each as often
    as it was added, sorted by year and then by the text of the season
    label, records with the same year and season in the order they were
    added; the labels compare as "monsoon" < "post_monsoon" <
    "pre_monsoon" < "winter", which is not the order of the calendar; and
    [latest] is the last record of that list, [None] when it is empty. *)
Theorem by_panchayat_sorted_by_year_and_label
  (self : GroundwaterMonitor.t) (pid : string) :
  Permutation (by_panchayat self pid)
    (filter (fun r => String.eqb (panchayat_id r) pid) self) /\
  StronglySorted key_order (by_panchayat self pid) /\
  (forall y s,
     filter (fun r => (year r =? y)%Z && season_eqb (season r) s)
       (by_panchayat self pid) =
     filter (fun r => (year r =? y)%Z && season_eqb (season r) s)
       (filter (fun r => String.eqb (panchayat_id r) pid) self)) /\
  (String.ltb (season_value MONSOON) (season_value POST_MONSOON) = true /\
   String.ltb (season_value POST_MONSOON) (season_value PRE_MONSOON) = true /\
   String.ltb (season_value PRE_MONSOON) (season_value WINTER) = true) /\
  map season (by_panchayat calendar_2024 "GP001") =
    [MONSOON; POST_MONSOON; PRE_MONSOON; WINTER] /\
  option_map season (latest until_autumn_2024 "GP001") = Some PRE_MONSOON /\
  latest self pid = Py.last_opt (by_panchayat self pid) /\
  (by_panchayat self pid = [] -> latest self pid = None) /\
  (forall l x, by_panchayat self pid = l ++ [x] -> latest self pid = Some x).
Proof.
  repeat apply conj; try reflexivity.
  - apply sorted_perm.
  - apply StronglySorted_impl with (R := fun a b => key_le a b = true).
    + apply key_le_order.
    + apply sorted_sorted; [apply key_le_total | apply key_le_trans].
  - intros y s. apply sorted_stable.
    intros a b Ha Hb.
    apply andb_true_iff in Ha, Hb. destruct Ha as [Ya Sa], Hb as [Yb Sb].
    apply Z.eqb_eq in Ya, Yb. revert Sa Sb.
    unfold key_le, key_ltb, key; simpl. rewrite Ya, Yb, Z.eqb_refl.
    destruct (season a), (season b), s; simpl; try reflexivity; discriminate.
  - intros H. unfold latest. now rewrite H.
  - intros l x H. unfold latest. rewrite H. apply last_opt_snoc.
Qed.

Lemma by_panchayat_sorted_by_year_and_label_witness :
  by_panchayat until_autumn_2024 "GP001" =
    [gw "GP001" MONSOON 2024 7 9; gw "GP001" POST_MONSOON 2024 6 7]
    ++ [gw "GP001" PRE_MONSOON 2024 12 10] /\
  latest until_autumn_2024 "GP001" = Some (gw "GP001" PRE_MONSOON 2024 12 10).
Proof.
  assert (E : by_panchayat until_autumn_2024 "GP001" =
    [gw "GP001" MONSOON 2024 7 9; gw "GP001" POST_MONSOON 2024 6 7]
    ++ [gw "GP001" PRE_MONSOON 2024 12 10]) by reflexivity.
  split; [exact E |].
  destruct (by_panchayat_sorted_by_year_and_label until_autumn_2024 "GP001")
    as (_ & _ & _ & _ & _ & _ & _ & _ & L).
  exact (L _ _ E).
Defined.

(** The trend as the specification words it: the pre-monsoon records of
    the panchayat by ascending year, the last [years] of them (all when
    there are fewer), false under two entries, and otherwise whether each
    depth is greater than the one before. *)
Definition last_entries {A} (n : nat) (l : list A) : list A :=
  skipn (List.length l - n) l.

Fixpoint deepening (ds : list Q) : bool :=
  match ds with
  | a :: (b :: _) as rest => (b >? a) && deepening rest
  | _ => true
  end.

Definition pre_monsoon_by_year (self : GroundwaterMonitor.t) (pid : string)
  : list GroundwaterLevel.t :=
  Py.sorted year_le
    (filter (fun r => String.eqb (panchayat_id r) pid
                      && season_eqb (season r) PRE_MONSOON) self).

Definition declining_trend_spec
  (self : GroundwaterMonitor.t) (pid : string) (years : Z) : bool :=
  let recent := last_entries (Z.to_nat years) (pre_monsoon_by_year self pid) in
  if (List.length recent <? 2)%nat then false
  else deepening (map depth_meters recent).

Lemma recent_last_entries {A} (records : list A) (years : Z) :
  (1 <= years)%Z ->
  (if (Py.len records >=? years)%Z then Py.slice_from (- years) records
   else records) = last_entries (Z.to_nat years) records.
Proof.
  intros Y. unfold last_entries, Py.slice_from, Py.len.
  destruct (Z.geb_spec (Z.of_nat (List.length records)) years) as [G | L].
  - destruct (Z.ltb_spec (- years) 0); [| lia].
    f_equal. lia.
  - replace (List.length records - Z.to_nat years)%nat with 0%nat by lia.
    reflexivity.
Qed.

Lemma forallb_ext_in {A} (f g : A -> bool) (l : list A) :
  (forall x, In x l -> f x = g x) -> forallb f l = forallb g l.
Proof.
  induction l as [| x l IH]; simpl; intros H; [reflexivity |].
  rewrite (H x) by now left.
  rewrite IH; [reflexivity |]. intros y Hy. apply H. now right.
Qed.

Lemma forallb_map {A B} (f : B -> bool) (g : A -> B) (l : list A) :
  forallb f (map g l) = forallb (fun x => f (g x)) l.
Proof.
  induction l as [| x l IH]; simpl; [reflexivity |]. now rewrite IH.
Qed.

Lemma deepening_cons a b rest :
  deepening (a :: b :: rest) = (b >? a) && deepening (b :: rest).
Proof. reflexivity. Qed.

(** The loop over the indices compares the neighbours. *)
Lemma pairs_deepening (l : list GroundwaterLevel.t) :
  forallb (fun i => item l i >? item l (i - 1))
          (seq 1 (List.length l - 1))
  = deepening (map depth_meters l).
Proof.
  induction l as [| a l IH]; [reflexivity |].
  destruct l as [| b l]; [reflexivity |].
  change (List.length (a :: b :: l) - 1)%nat with (S (List.length l)).
  change (seq 1 (S (List.length l))) with (1%nat :: seq 2 (List.length l)).
  rewrite <- seq_shift.
  cbn [forallb map]. rewrite deepening_cons, forallb_map.
  f_equal. change (depth_meters b :: map depth_meters l)
    with (map depth_meters (b :: l)). rewrite <- IH.
  change (List.length (b :: l) - 1)%nat with (List.length l - 0)%nat.
  rewrite Nat.sub_0_r.
  apply forallb_ext_in. intros i Hi. apply in_seq in Hi.
  destruct i as [| i]; [lia |]. simpl. now rewrite Nat.sub_0_r.
Qed.

(** For one year or more the code computes the trend of the
    specification. *)
Lemma declining_trend_positive_years self pid years :
  (1 <= years)%Z ->
  declining_trend self pid years = declining_trend_spec self pid years.
Proof.
  intros Y. unfold declining_trend, declining_trend_spec.
  fold (pre_monsoon_by_year self pid).
  rewrite (recent_last_entries _ Y).
  set (recent := last_entries _ _).
  rewrite pairs_deepening. unfold Py.len.
  destruct (Z.ltb_spec (Z.of_nat (List.length recent)) 2);
    destruct (Nat.ltb_spec (List.length recent) 2); try lia; reflexivity.
Qed.

Definition falling_2022_2023 : GroundwaterMonitor.t :=
  add (gw "GP001" PRE_MONSOON 2023 10 8)
    (add (gw "GP001" PRE_MONSOON 2022 8 7) init).

(** C3 at [years = 0]: the last 0 entries are no entries, so the trend of
    the claim is false, but the slice [records[-0:]] is the whole list and
    the code answers true. *)
Theorem declining_trend_zero_years :
  declining_trend falling_2022_2023 "GP001" 0 = true /\
  declining_trend_spec falling_2022_2023 "GP001" 0 = false.
Proof. split; reflexivity. Qed.

End GroundwaterFacts.

(** ** Alerts *)

Module AlertFacts.
Import Py AlertEngine.

(** One alert of the given level and category for the panchayat. *)
Definition single (lvl : AlertLevel) (cat pid : string)
  (alerts : list WaterAlert.t) : Prop :=
  exists a, alerts = [a] /\ WaterAlert.level a = lvl /\
            WaterAlert.category a = cat /\ WaterAlert.panchayat_id a = pid.

Definition rain (month : Z) (mm normal : Q) : RainfallRecord.t :=
  {| RainfallRecord.panchayat_id := "GP001"; RainfallRecord.month := month;
     RainfallRecord.year := 2024; RainfallRecord.rainfall_mm := mm;
     RainfallRecord.normal_mm := normal |}.

Definition half_monsoon : RainfallAnalyzer.t :=
  RainfallAnalyzer.add (rain 7 80 160) RainfallAnalyzer.init.

Definition wet_monsoon : RainfallAnalyzer.t :=
  RainfallAnalyzer.add (rain 7 224 160) RainfallAnalyzer.init.

Lemma risk_bands self pid y :
  exists dev, RainfallAnalyzer.annual_deviation_pct self pid y = Ok dev /\
    (RainfallAnalyzer.drought_risk self pid y = Ok "severe_drought"
       <-> dev <= -60) /\
    (RainfallAnalyzer.flood_risk self pid y = Ok "high_flood_risk"
       <-> 60 <= dev) /\
    (RainfallAnalyzer.flood_risk self pid y = Ok "moderate_flood_risk"
       <-> 30 <= dev /\ dev < 60).
Proof.
  destruct (DivisionFacts.annual_deviation_pct_returns self pid y) as [dev E].
  exists dev. split; [exact E |].
  unfold RainfallAnalyzer.drought_risk, RainfallAnalyzer.flood_risk.
  rewrite E. cbn [bind].
  repeat apply conj; repeat branch; props;
    intros; try discriminate; try reflexivity; try lra.
Qed.

(** C7: [check_rainfall] emits one CRITICAL drought alert when the
    deviation is at most -40, one CRITICAL flood alert when it is at least
    60, and nothing in between. The bands of the risk classes are others:
    [drought_risk] is severe from -60 down, so a deviation of -50 is a
    moderate drought and still raises the alert, and [flood_risk] is high
    from 60 up and moderate from 30 up, so a deviation of 40 is a moderate
    flood risk and raises none. *)
Theorem check_rainfall_thresholds :
  (forall pid dev e, exists alerts e',
     check_rainfall pid dev e = Ok (alerts, e') /\
     (dev <= -40 -> single CRITICAL "drought" pid alerts) /\
     (60 <= dev -> single CRITICAL "flood" pid alerts) /\
     (-40 < dev -> dev < 60 -> alerts = [])) /\
  (forall self pid y, exists dev,
     RainfallAnalyzer.annual_deviation_pct self pid y = Ok dev /\
     (RainfallAnalyzer.drought_risk self pid y = Ok "severe_drought"
        <-> dev <= -60) /\
     (RainfallAnalyzer.flood_risk self pid y = Ok "high_flood_risk"
        <-> 60 <= dev) /\
     (RainfallAnalyzer.flood_risk self pid y = Ok "moderate_flood_risk"
        <-> 30 <= dev /\ dev < 60)) /\
  (exists dev,
     RainfallAnalyzer.annual_deviation_pct half_monsoon "GP001" 2024 = Ok dev
     /\ dev == -50
     /\ RainfallAnalyzer.drought_risk half_monsoon "GP001" 2024
          = Ok "moderate_drought"
     /\ exists a e', check_rainfall "GP001" dev init = Ok ([a], e')) /\
  (exists dev,
     RainfallAnalyzer.annual_deviation_pct wet_monsoon "GP001" 2024 = Ok dev
     /\ dev == 40
     /\ RainfallAnalyzer.flood_risk wet_monsoon "GP001" 2024
          = Ok "moderate_flood_risk"
     /\ check_rainfall "GP001" dev init = Ok ([], init)).
Proof.
  split; [| split; [exact risk_bands |]].
  - intros pid dev e. unfold check_rainfall.
    repeat branch; props; unfold mbind, _next_id, ret; cbn;
      eexists; eexists; (split; [reflexivity |]);
      repeat apply conj; intros; try lra; try reflexivity;
      eexists; repeat split.
  - split; eexists; (split; [vm_compute; reflexivity |]);
      (split; [reflexivity |]); (split; [reflexivity |]).
    + eexists. eexists. reflexivity.
    + reflexivity.
Qed.

Lemma check_rainfall_thresholds_witness :
  -81 <= -40 /\
  exists alerts e',
    check_rainfall "GP001" (-81) init = Ok (alerts, e') /\
    single CRITICAL "drought" "GP001" alerts.
Proof.
  assert (H : -81 <= -40) by lra.
  split; [exact H |].
  destruct (proj1 check_rainfall_thresholds "GP001" (-81) init)
    as (alerts & e' & E & D & _).
  exists alerts, e'. split; [exact E | exact (D H)].
Defined.

(** The trend test of [check_groundwater]. *)
Definition dropping (record : GroundwaterLevel.t) : Prop :=
  GroundwaterLevel.is_declining record = true /\
  2 < GroundwaterLevel.change_meters record.

Lemma is_declining_iff record :
  GroundwaterLevel.is_declining record = true <->
  GroundwaterLevel.previous_year_depth record
    < GroundwaterLevel.depth_meters record.
Proof. apply gtb_true. Qed.

(** C8: [check_groundwater] emits the alerts of the depth followed by
    those of the trend. The depth gives one CRITICAL alert above 40, else
    one WARNING alert above 20, else none; the trend gives one WARNING
    alert of category groundwater_trend exactly when the record is
    declining (its depth is greater than the depth of the previous year)
    and its change is greater than 2; so there are at most two alerts. *)
Theorem check_groundwater_alerts (record : GroundwaterLevel.t) (e : AlertEngine.t) :
  let depth := GroundwaterLevel.depth_meters record in
  let pid := GroundwaterLevel.panchayat_id record in
  exists by_depth by_trend e',
    check_groundwater record e = Ok (by_depth ++ by_trend, e') /\
    (40 < depth -> single CRITICAL "groundwater" pid by_depth) /\
    (20 < depth -> depth <= 40 -> single WARNING "groundwater" pid by_depth) /\
    (depth <= 20 -> by_depth = []) /\
    (dropping record -> single WARNING "groundwater_trend" pid by_trend) /\
    (~ dropping record -> by_trend = []) /\
    (GroundwaterLevel.is_declining record = true <->
     GroundwaterLevel.previous_year_depth record < depth) /\
    (List.length (by_depth ++ by_trend) <= 2)%nat.
Proof.
  cbv zeta.
  assert (T : GroundwaterLevel.is_declining record
              && (GroundwaterLevel.change_meters record >? 2) = true
              <-> dropping record).
  { unfold dropping. now rewrite andb_true_iff, gtb_true. }
  unfold check_groundwater.
  destruct (GroundwaterLevel.depth_meters record >? 40) eqn:E40;
    [| destruct (GroundwaterLevel.depth_meters record >? 20) eqn:E20];
    destruct (GroundwaterLevel.is_declining record
              && (GroundwaterLevel.change_meters record >? 2)) eqn:D;
    props; unfold mbind, _next_id, ret; cbn [app];
    match goal with
    | |- exists _ _ _, Ok (?l, ?e') = _ /\ _ =>
        match type of E40 with
        | _ < _ => exists (firstn 1 l), (skipn 1 l), e'
        | _ =>
            match type of E20 with
            | _ < _ => exists (firstn 1 l), (skipn 1 l), e'
            | _ => exists [], l, e'
            end
        end
    end;
    cbn [firstn skipn app];
    (split; [reflexivity |]);
    repeat apply conj; intros;
    try apply is_declining_iff; try assumption;
    try lra;
    try match goal with
    | H : dropping _ |- _ => apply T in H; discriminate
    | H : ~ dropping _ |- _ => exfalso; apply H, T; reflexivity
    end;
    match goal with
    | |- single _ _ _ _ => eexists; repeat split
    | |- (_ <= _)%nat => simpl; lia
    | |- _ => reflexivity
    end.
Qed.

Definition deep_and_dropping : GroundwaterLevel.t :=
  {| GroundwaterLevel.panchayat_id := "GP001";
     GroundwaterLevel.season := PRE_MONSOON;
     GroundwaterLevel.year := 2024;
     GroundwaterLevel.depth_meters := 45;
     GroundwaterLevel.previous_year_depth := 41 |}.

Lemma check_groundwater_alerts_witness :
  40 < GroundwaterLevel.depth_meters deep_and_dropping /\
  dropping deep_and_dropping /\
  exists a b e',
    check_groundwater deep_and_dropping init = Ok ([a; b], e') /\
    WaterAlert.level a = CRITICAL /\ WaterAlert.level b = WARNING.
Proof.
  assert (H : 40 < GroundwaterLevel.depth_meters deep_and_dropping)
    by (simpl; lra).
  assert (D : dropping deep_and_dropping).
  { split; [reflexivity |]. vm_compute. reflexivity. }
  split; [exact H |]. split; [exact D |].
  destruct (check_groundwater_alerts deep_and_dropping init)
    as (by_depth & by_trend & e' & E & C & _ & _ & W & _).
  destruct (C H) as (a & -> & La & _).
  destruct (W D) as (b & -> & Lb & _).
  exists a, b, e'. split; [exact E | split; assumption].
Defined.

(** *** Identifiers *)

(** The identifier of the [n]-th alert of an engine. *)
Definition id_of (n : N) : string := ("ALERT-" ++ fmt_04d n)%string.

(** Reading the sequence number back from an identifier. *)
Fixpoint strip_prefix (p s : string) : option string :=
  match p, s with
  | EmptyString, _ => Some s
  | String a p', String b s' =>
      if Ascii.eqb a b then strip_prefix p' s' else None
  | String _ _, EmptyString => None
  end.

Definition id_number (s : string) : option N :=
  match strip_prefix "ALERT-" s with
  | Some d => option_map N.of_uint (NilEmpty.uint_of_string d)
  | None => None
  end.

(** The order of the identifiers: that of their sequence numbers. *)
Definition id_lt (a b : string) : Prop :=
  exists i j, id_number a = Some i /\ id_number b = Some j /\ (i < j)%N.

Lemma uint_of_zeros k d :
  option_map N.of_uint (NilEmpty.uint_of_string (zeros k ++ d)%string)
  = option_map N.of_uint (NilEmpty.uint_of_string d).
Proof.
  induction k as [| k IH]; [reflexivity |].
  simpl. destruct (NilEmpty.uint_of_string (zeros k ++ d)%string) as [u |];
    destruct (NilEmpty.uint_of_string d) as [u' |]; simpl in *;
    try discriminate; try reflexivity.
  exact IH.
Qed.

Lemma id_number_of n : id_number (id_of n) = Some n.
Proof.
  unfold id_number, id_of. cbn [strip_prefix append Ascii.eqb Bool.eqb].
  unfold fmt_04d. rewrite uint_of_zeros. unfold digits.
  rewrite NilEmpty.usu. simpl. f_equal. apply DecimalN.Unsigned.of_to.
Qed.

Lemma id_of_inj n m : id_of n = id_of m -> n = m.
Proof.
  intros H. apply (f_equal id_number) in H.
  rewrite !id_number_of in H. now injection H.
Qed.

Lemma id_lt_of n m : (n < m)%N -> id_lt (id_of n) (id_of m).
Proof.
  intros H. exists n, m. now rewrite !id_number_of.
Qed.

Lemma id_lt_irrefl a : ~ id_lt a a.
Proof.
  intros (i & j & Hi & Hj & L). rewrite Hi in Hj. injection Hj as ->. lia.
Qed.

(** The identifiers after [c] alerts were issued: [c + 1], [c + 2], ... *)
Definition ids_from (c : N) (n : nat) : list string :=
  map (fun i => id_of (c + N.of_nat i)) (seq 1 n).

Lemma ids_from_app c n m :
  ids_from c (n + m) = ids_from c n ++ ids_from (c + N.of_nat n) m.
Proof.
  unfold ids_from. rewrite seq_app, map_app. f_equal.
  rewrite <- (Nat.add_comm n 1).
  replace (seq (n + 1) m) with (map (fun i => (n + i)%nat) (seq 1 m)).
  - rewrite map_map. apply map_ext. intros i. f_equal. lia.
  - clear. generalize 1%nat. induction m as [| m IH]; intros k; simpl.
    + reflexivity.
    + f_equal. rewrite IH. now rewrite Nat.add_succ_r.
Qed.

Lemma ids_from_sorted c n : StronglySorted id_lt (ids_from c n).
Proof.
  unfold ids_from. generalize 1%nat as k.
  induction n as [| n IH]; intros k; simpl; constructor.
  - apply IH.
  - apply Forall_forall. intros a Ha.
    apply in_map_iff in Ha. destruct Ha as (i & <- & Hi).
    apply in_seq in Hi. apply id_lt_of. lia.
Qed.

Lemma sorted_nodup {A} (R : A -> A -> Prop) (l : list A) :
  (forall a, ~ R a a) -> StronglySorted R l -> NoDup l.
Proof.
  intros Irr. induction 1 as [| x l S IH F]; constructor; [| exact IH].
  intros In. rewrite Forall_forall in F. exact (Irr x (F x In)).
Qed.

(** A method that numbers the alerts it emits from the counter on and
    leaves the counter at the last number. *)
Definition emits (m : M (list WaterAlert.t)) : Prop :=
  forall e, exists alerts e',
    m e = Ok (alerts, e') /\
    _alert_counter e' = (_alert_counter e + N.of_nat (List.length alerts))%N /\
    map WaterAlert.alert_id alerts
      = ids_from (_alert_counter e) (List.length alerts).

Ltac emit :=
  intros e; unfold mbind, lift, _next_id, ret; cbn [app];
  eexists; eexists; (split; [reflexivity |]);
  unfold ids_from, id_of, alert;
  cbn [map List.length seq WaterAlert.alert_id _alert_counter];
  split; [lia |]; repeat (f_equal; try lia).

Lemma check_quality_emits report : emits (check_quality report).
Proof.
  unfold check_quality. repeat branch; emit.
Qed.

Lemma check_groundwater_emits record : emits (check_groundwater record).
Proof.
  unfold check_groundwater. repeat branch; emit.
Qed.

Lemma check_supply_emits population supply :
  emits (check_supply population supply).
Proof.
  unfold check_supply. destruct (population =? 0)%Z eqn:E; [emit |].
  intros e. unfold mbind at 1. unfold lift.
  rewrite DivisionFacts.div_returns
    by now rewrite DivisionFacts.eqb_inject_Z.
  revert e. repeat branch; emit.
Qed.

Lemma check_rainfall_emits pid dev : emits (check_rainfall pid dev).
Proof.
  unfold check_rainfall. repeat branch; emit.
Qed.

Lemma run_call_emits c : emits (run_call c).
Proof.
  destruct c; simpl.
  - apply check_quality_emits.
  - apply check_groundwater_emits.
  - apply check_supply_emits.
  - apply check_rainfall_emits.
Qed.

Lemma run_calls_emits cs : emits (run_calls cs).
Proof.
  induction cs as [| c cs IH]; simpl.
  - emit.
  - intros e.
    destruct (run_call_emits c e) as (a & e1 & E1 & C1 & I1).
    destruct (IH e1) as (b & e2 & E2 & C2 & I2).
    exists (a ++ b), e2. unfold mbind, ret. rewrite E1, E2.
    split; [reflexivity |]. rewrite length_app, map_app, ids_from_app.
    split; [lia |]. rewrite I1, I2, C1. reflexivity.
Qed.

(** C9: over any sequence of [check_quality], [check_groundwater],
    [check_supply] and [check_rainfall] calls on one engine, the calls
    return, the identifiers of the emitted alerts carry, in the order of
    emission, the sequence numbers that follow the counter one by one, so
    they increase strictly, and no identifier occurs twice. *)
Theorem alert_ids_strictly_increasing (cs : list call) (e : AlertEngine.t) :
  exists alerts e',
    run_calls cs e = Ok (alerts, e') /\
    map id_number (map WaterAlert.alert_id alerts)
      = map (fun i => Some (_alert_counter e + N.of_nat i)%N)
            (seq 1 (List.length alerts)) /\
    StronglySorted id_lt (map WaterAlert.alert_id alerts) /\
    NoDup (map WaterAlert.alert_id alerts).
Proof.
  destruct (run_calls_emits cs e) as (alerts & e' & E & _ & I).
  exists alerts, e'. split; [exact E |].
  rewrite I. split; [| split].
  - unfold ids_from. rewrite map_map. apply map_ext.
    intros i. apply id_number_of.
  - apply ids_from_sorted.
  - apply sorted_nodup with (R := id_lt).
    + apply id_lt_irrefl.
    + apply ids_from_sorted.
Qed.

(** As texts the identifiers are in the same order up to ALERT-9999; the
    next one has five digits and sorts before it. *)
Remark id_text_order :
  forallb (fun i => String.ltb (id_of (N.of_nat i)) (id_of (N.of_nat (S i))))
          (seq 0 (N.to_nat 9999)) = true /\
  String.ltb (id_of 10000) (id_of 9999) = true.
Proof. split; vm_compute; reflexivity. Qed.

End AlertFacts.

(** * Further properties of the code *)

(** ** Rounding *)

Module RoundFacts.
Import Py.

Lemma round_half_even_floor y :
  (Qfloor y <= round_half_even y <= Qfloor y + 1)%Z.
Proof.
  unfold round_half_even. repeat branch; lia.
Qed.

(** Rounding never crosses an integer. *)
Lemma round_half_even_lower k y :
  inject_Z k <= y -> (k <= round_half_even y)%Z.
Proof.
  intros H. apply Qfloor_resp_le in H. rewrite Qfloor_Z in H.
  pose proof (round_half_even_floor y). lia.
Qed.

Lemma round_half_even_upper k y :
  y <= inject_Z k -> (round_half_even y <= k)%Z.
Proof.
  intros H. pose proof (Qfloor_resp_le _ _ H) as F. rewrite Qfloor_Z in F.
  assert (half : (y - inject_Z (Qfloor y) <? 1 # 2) = false ->
                 (Qfloor y < k)%Z).
  { intros E. apply ltb_false in E. rewrite Zlt_Qlt. lra. }
  unfold round_half_even. repeat branch; try lia;
    specialize (half eq_refl); lia.
Qed.

Lemma scale_pos n : 0 < inject_Z (10 ^ Z.of_nat n).
Proof.
  change 0 with (inject_Z 0). rewrite <- Zlt_Qlt.
  apply Z.pow_pos_nonneg; lia.
Qed.

Lemma round_lower k x n : inject_Z k <= x -> inject_Z k <= round x n.
Proof.
  intros H. unfold round. apply Qle_shift_div_l; [apply scale_pos |].
  rewrite <- inject_Z_mult, <- Zle_Qle.
  apply round_half_even_lower. rewrite inject_Z_mult.
  apply Qmult_le_compat_r; [exact H | apply Qlt_le_weak, scale_pos].
Qed.

Lemma round_upper k x n : x <= inject_Z k -> round x n <= inject_Z k.
Proof.
  intros H. unfold round. apply Qle_shift_div_r; [apply scale_pos |].
  rewrite <- inject_Z_mult, <- Zle_Qle.
  apply round_half_even_upper. rewrite inject_Z_mult.
  apply Qmult_le_compat_r; [exact H | apply Qlt_le_weak, scale_pos].
Qed.

Lemma round_nonneg x n : 0 <= x -> 0 <= round x n.
Proof. intros H. change 0 with (inject_Z 0). now apply round_lower. Qed.

End RoundFacts.

(** ** Grades, issues and treatments *)

Module QualityMore.
Import WaterQualityReport BIS_LIMITS WaterQualityAnalyzer.

(** Some check of the grading sets the hazardous flag. *)
Definition hazard (r : WaterQualityReport.t) : bool :=
  (ph r <? 5.0) || (ph r >? 9.5) || (tds_ppm r >? tds_permissible)
  || (fluoride_ppm r >? fluoride_permissible)
  || (arsenic_ppb r >? arsenic_max_ppb) || (nitrate_ppm r >? nitrate_max)
  || coliform_present r.

(** Some parameter is beyond a bound that sets the contaminated flag. *)
Definition taint (r : WaterQualityReport.t) : bool :=
  (ph r <? ph_min) || (ph r >? ph_max) || (tds_ppm r >? tds_acceptable)
  || (turbidity_ntu r >? turbidity_permissible)
  || (fluoride_ppm r >? fluoride_acceptable)
  || (iron_ppm r >? iron_permissible).

Definition four_test (r : WaterQualityReport.t) : bool :=
  (tds_ppm r <=? tds_acceptable)
  && (turbidity_ntu r <=? turbidity_acceptable)
  && (fluoride_ppm r <=? fluoride_acceptable)
  && (iron_ppm r <=? iron_acceptable).

(** The flags of the grading, once all checks have run. *)
Lemma grade_report_flags r :
  grade_report r =
    if hazard r then HAZARDOUS
    else if taint r then CONTAMINATED
    else if four_test r then SAFE else ACCEPTABLE.
Proof.
  unfold grade_report, hazard, taint, four_test.
  destruct (ph r <? 5.0), (ph r >? 9.5), (ph r <? ph_min), (ph r >? ph_max),
    (tds_ppm r >? tds_permissible), (tds_ppm r >? tds_acceptable),
    (turbidity_ntu r >? turbidity_permissible),
    (fluoride_ppm r >? fluoride_permissible),
    (fluoride_ppm r >? fluoride_acceptable),
    (arsenic_ppb r >? arsenic_max_ppb), (iron_ppm r >? iron_permissible),
    (nitrate_ppm r >? nitrate_max), (coliform_present r); reflexivity.
Qed.

(** What sets the hazardous flag, and what sets the contaminated one. *)
Definition hazardous_by (r : WaterQualityReport.t) : Prop :=
  ph r < 5 \/ 9.5 < ph r \/ 2000 < tds_ppm r \/ 1.5 < fluoride_ppm r \/
  10 < arsenic_ppb r \/ 45 < nitrate_ppm r \/ coliform_present r = true.

Definition contaminated_by (r : WaterQualityReport.t) : Prop :=
  ph r < 6.5 \/ 8.5 < ph r \/ 500 < tds_ppm r \/ 5 < turbidity_ntu r \/
  1.0 < fluoride_ppm r \/ 1.0 < iron_ppm r.

Lemma hazard_iff r : hazard r = true <-> hazardous_by r.
Proof.
  unfold hazard, hazardous_by.
  rewrite !orb_true_iff, ltb_true, !gtb_true.
  unfold tds_permissible, fluoride_permissible, arsenic_max_ppb, nitrate_max.
  intuition lra.
Qed.

Lemma taint_iff r : taint r = true <-> contaminated_by r.
Proof.
  unfold taint, contaminated_by.
  rewrite !orb_true_iff, ltb_true, !gtb_true.
  unfold ph_min, ph_max, tds_acceptable, turbidity_permissible,
    fluoride_acceptable, iron_permissible.
  intuition lra.
Qed.

Lemma not_true_false (b : bool) (P : Prop) :
  (b = true <-> P) -> (b = false <-> ~ P).
Proof. destruct b; intuition congruence. Qed.

Lemma no_flag_iff r :
  QualityFacts.no_flag r <-> ~ hazardous_by r /\ ~ contaminated_by r.
Proof.
  unfold QualityFacts.no_flag, hazardous_by, contaminated_by.
  destruct (coliform_present r).
  - split; [intros (_ & _ & _ & _ & _ & _ & _ & _ & F); discriminate |].
    intros [H _]. exfalso. apply H. tauto.
  - split.
    + intros (H1 & H2 & H3 & H4 & H5 & H6 & H7 & H8 & _).
      split; intros H; repeat (destruct H as [H | H]);
        try discriminate; lra.
    + intros [H C]. repeat split;
        try (apply Qnot_lt_le; intros L; tauto).
Qed.

Lemma safe_iff r : grade_report r = SAFE <-> QualityFacts.others_acceptable r.
Proof.
  rewrite grade_report_flags.
  pose proof (hazard_iff r) as Hz. pose proof (taint_iff r) as Tn.
  pose proof (QualityFacts.four_acceptable_test r) as Fr.
  fold (four_test r) in Fr.
  split.
  - destruct (hazard r); [discriminate |].
    destruct (taint r); [discriminate |].
    destruct (four_test r); [| discriminate]. intros _.
    assert (N : QualityFacts.no_flag r).
    { apply no_flag_iff. split; intros H; [apply Hz in H | apply Tn in H];
        discriminate. }
    assert (F : QualityFacts.four_acceptable r) by now apply Fr.
    unfold QualityFacts.no_flag in N.
    unfold QualityFacts.four_acceptable in F.
    unfold QualityFacts.others_acceptable. tauto.
  - intros O.
    pose proof (QualityFacts.others_acceptable_no_flag O) as N.
    pose proof (QualityFacts.others_acceptable_four O) as F.
    apply no_flag_iff in N. destruct N as [NH NT].
    apply Fr in F. rewrite F.
    destruct (hazard r); [exfalso; apply NH, Hz; reflexivity |].
    destruct (taint r); [exfalso; apply NT, Tn; reflexivity |].
    reflexivity.
Qed.

(** X1: the grade follows the precedence of the flags. It is hazardous
    exactly when some hazardous threshold is crossed or coliform is
    present; contaminated exactly when that is not so and some
    contaminated threshold is crossed; acceptable exactly when no flag is
    set and turbidity is above 1 or iron above 0.3; and safe exactly when
    pH is inside 6.5 to 8.5, every other graded parameter is within its
    acceptable bound and there is no coliform. *)
Theorem grade_by_precedence (r : WaterQualityReport.t) :
  (grade_report r = HAZARDOUS <-> hazardous_by r) /\
  (grade_report r = CONTAMINATED <-> ~ hazardous_by r /\ contaminated_by r) /\
  (grade_report r = ACCEPTABLE <->
     QualityFacts.no_flag r /\ (1 < turbidity_ntu r \/ 0.3 < iron_ppm r)) /\
  (grade_report r = SAFE <-> QualityFacts.others_acceptable r).
Proof.
  pose proof (hazard_iff r) as Hz. pose proof (taint_iff r) as Tn.
  pose proof (not_true_false Hz) as Hz'.
  pose proof (not_true_false Tn) as Tn'.
  pose proof (QualityFacts.four_acceptable_test r) as Fr.
  fold (four_test r) in Fr.
  split; [| split; [| split; [| apply safe_iff]]].
  - rewrite grade_report_flags, <- Hz.
    destruct (hazard r), (taint r), (four_test r); intuition congruence.
  - rewrite grade_report_flags, <- Tn, <- Hz'.
    destruct (hazard r), (taint r), (four_test r); intuition congruence.
  - rewrite no_flag_iff, <- Hz', <- Tn', grade_report_flags.
    split.
    + destruct (hazard r); [discriminate |].
      destruct (taint r); [discriminate |].
      destruct (four_test r) eqn:F; [discriminate |]. intros _.
      split; [split; reflexivity |].
      destruct (Qlt_le_dec 1 (turbidity_ntu r)) as [L | T]; [now left |].
      destruct (Qlt_le_dec 0.3 (iron_ppm r)) as [L | I]; [now right |].
      exfalso.
      assert (N : QualityFacts.no_flag r).
      { apply no_flag_iff. rewrite <- Hz', <- Tn'. split; reflexivity. }
      unfold QualityFacts.no_flag in N.
      assert (A : QualityFacts.four_acceptable r)
        by (unfold QualityFacts.four_acceptable; intuition lra).
      apply Fr in A. discriminate.
    + intros [[H T] D]. rewrite H, T.
      destruct (four_test r); [| reflexivity].
      exfalso. assert (A : QualityFacts.four_acceptable r) by now apply Fr.
      unfold QualityFacts.four_acceptable in A. intuition lra.
Qed.

Lemma append_if_nil {A} (c : bool) (x : A) (l : list A) :
  append_if c x l = [] <-> c = false /\ l = [].
Proof.
  unfold append_if. destruct c.
  - split; [| intros [F _]; discriminate].
    destruct l; discriminate.
  - tauto.
Qed.

Lemma append_if_length {A} (c : bool) (x : A) (l : list A) :
  List.length (append_if c x l)
  = (List.length l + if c then 1 else 0)%nat.
Proof.
  unfold append_if. destruct c.
  - apply length_app.
  - now rewrite Nat.add_0_r.
Qed.

Lemma no_treatment_iff r :
  recommend_treatment r = [] <-> QualityFacts.others_acceptable r.
Proof.
  unfold recommend_treatment. cbv zeta. rewrite !append_if_nil.
  rewrite ltb_false, !gtb_false.
  unfold QualityFacts.others_acceptable, ph_min, ph_max, tds_acceptable,
    turbidity_acceptable, fluoride_acceptable, arsenic_max_ppb,
    iron_acceptable, nitrate_max.
  intuition lra.
Qed.

(** X2: no treatment is recommended exactly for the reports graded
    safe. *)
Theorem no_treatment_iff_safe (r : WaterQualityReport.t) :
  recommend_treatment r = [] <-> grade_report r = SAFE.
Proof.
  rewrite no_treatment_iff. symmetry. apply safe_iff.
Qed.

(** X3: every issue but the chloride one has its treatment: the issues
    are as many as the treatments, and one more when chloride is above
    250. *)
Theorem issues_and_treatments (r : WaterQualityReport.t) :
  List.length (identify_contaminants r)
  = (List.length (recommend_treatment r)
     + if chloride_ppm r >? chloride_acceptable then 1 else 0)%nat.
Proof.
  unfold identify_contaminants, recommend_treatment. cbv zeta.
  rewrite !append_if_length. simpl List.length. lia.
Qed.

End QualityMore.

(** ** Dictionaries under repeated writes *)

Module DictMore.
Section Writes.
Context {V : Type} (key_of : V -> string).
Implicit Types (d : Dict.t V) (v : V).

(** Every value sits under its own key and no key occurs twice. *)
Definition keyed d : Prop :=
  NoDup (map fst d) /\ forall k v, In (k, v) d -> key_of v = k.

(** The dictionary after writing the values of [vs], in order, each under
    its key. *)
Definition written (vs : list V) : Dict.t V :=
  fold_left (fun d v => Dict.set (key_of v) v d) vs Dict.empty.

Lemma in_set k v d k' v' :
  In (k', v') (Dict.set k v d) -> (k', v') = (k, v) \/ In (k', v') d.
Proof.
  induction d as [| [k0 v0] d IH]; simpl.
  - intros [H | []]. left. now symmetry.
  - destruct (String.eqb k0 k); simpl; intros [H | H].
    + left. now symmetry.
    + right. now right.
    + right. now left.
    + destruct (IH H); [now left | right; now right].
Qed.

Lemma keys_set k v d :
  forall k', In k' (map fst (Dict.set k v d)) -> k' = k \/ In k' (map fst d).
Proof.
  intros k' H. apply in_map_iff in H. destruct H as ([k1 v1] & <- & H).
  apply in_set in H. destruct H as [H | H].
  - left. now inversion H.
  - right. apply in_map_iff. now exists (k1, v1).
Qed.

Lemma nodup_set k v d : NoDup (map fst d) -> NoDup (map fst (Dict.set k v d)).
Proof.
  induction d as [| [k0 v0] d IH]; simpl; intros N.
  - constructor; [intros [] | constructor].
  - inversion N as [| ? ? Nin N']; subst.
    destruct (String.eqb_spec k0 k) as [-> | Ne]; simpl.
    + now constructor.
    + constructor; [| now apply IH].
      intros H. apply keys_set in H. destruct H; [congruence | contradiction].
Qed.

Lemma keyed_set v d : keyed d -> keyed (Dict.set (key_of v) v d).
Proof.
  intros [N K]. split; [now apply nodup_set |].
  intros k v' H. apply in_set in H. destruct H as [H | H].
  - now inversion H.
  - now apply K.
Qed.

Lemma written_snoc vs v :
  written (vs ++ [v]) = Dict.set (key_of v) v (written vs).
Proof. unfold written. now rewrite fold_left_app. Qed.

Lemma written_keyed vs : keyed (written vs).
Proof.
  induction vs as [| v vs IH] using rev_ind.
  - split; [constructor | intros k v []].
  - rewrite written_snoc. now apply keyed_set.
Qed.

(** Last write wins. *)
Lemma get_written vs k :
  Dict.get k (written vs)
  = find (fun v => String.eqb (key_of v) k) (rev vs).
Proof.
  induction vs as [| v vs IH] using rev_ind; [reflexivity |].
  rewrite written_snoc, rev_unit. simpl.
  destruct (String.eqb_spec (key_of v) k) as [<- | Ne].
  - apply DictFacts.get_set_eq.
  - now rewrite DictFacts.get_set_neq.
Qed.

Lemma values_keys d :
  keyed d -> map key_of (Dict.values d) = map fst d.
Proof.
  intros [_ K]. unfold Dict.values. rewrite map_map.
  apply map_ext_in. intros [k v] H. simpl. now apply K.
Qed.

Lemma values_nodup d : keyed d -> NoDup (map key_of (Dict.values d)).
Proof. intros H. rewrite (values_keys H). apply H. Qed.

(** An overwrite keeps the number of entries, a new key adds one. *)
Lemma length_set k v d :
  List.length (Dict.set k v d)
  = match Dict.get k d with
    | Some _ => List.length d
    | None => S (List.length d)
    end.
Proof.
  induction d as [| [k0 v0] d IH]; simpl; [reflexivity |].
  destruct (String.eqb k0 k); simpl; [reflexivity |].
  rewrite IH. now destruct (Dict.get k d).
Qed.

End Writes.
End DictMore.

Lemma nodup_map_filter {K V} (key : V -> K) (keep : V -> bool)
  (vs : list V) (distinct : NoDup (map key vs)) :
  NoDup (map key (filter keep vs)).
Proof.
  revert distinct. induction vs as [| v vs IH]; simpl; intros N.
  - constructor.
  - inversion N as [| ? ? Nin N']; subst.
    destruct (keep v); simpl; [| now apply IH].
    constructor; [| now apply IH].
    intros H. apply Nin. apply in_map_iff in H.
    destruct H as (w & E & Hw). apply filter_In in Hw.
    apply in_map_iff. exists w. tauto.
Qed.

Lemma filter_split {A} (p : A -> bool) (l : list A) :
  Permutation (filter p l ++ filter (fun x => negb (p x)) l) l.
Proof.
  induction l as [| x l IH]; simpl; [constructor |].
  destruct (p x); simpl.
  - now constructor.
  - apply Permutation_sym, Permutation_cons_app, Permutation_sym, IH.
Qed.

Lemma filterM_pure {A} (f : A -> Py.result bool) (g : A -> bool)
  (l : list A) :
  (forall x, f x = Py.Ok (g x)) -> Py.filterM f l = Py.Ok (filter g l).
Proof.
  intros H. induction l as [| x l IH]; simpl; [reflexivity |].
  rewrite H, IH. simpl. now destruct (g x).
Qed.

(** ** More on the source registry *)

Module SourceMore.
Import WaterSource SourceManager.

(** The registry after the registrations [ss], in order, on a new one. *)
Definition registered (ss : list WaterSource.t) : SourceManager.t :=
  fold_left (fun self s => register s self) ss init.

(** X4: after [register], [get] on the id of the source returns that
    source, and [get] on any other id returns what it returned before. *)
Theorem register_then_get
  (self : SourceManager.t) (s : WaterSource.t) (id : string) :
  get (source_id s) (register s self) = Some s /\
  (id <> source_id s -> get id (register s self) = get id self).
Proof.
  split.
  - apply DictFacts.get_set_eq.
  - intros N. apply DictFacts.get_set_neq. congruence.
Qed.

Lemma register_then_get_witness :
  get "S1" (register SourceFacts.spare SourceFacts.one_pump)
  = get "S1" SourceFacts.one_pump.
Proof.
  apply (proj2 (register_then_get SourceFacts.one_pump SourceFacts.spare "S1")).
  discriminate.
Defined.

(** X5: after any sequence of registrations, [get] returns the source
    registered last under the id, [None] if there is none, and no two
    stored sources have the same id, so neither do two sources of a
    panchayat. *)
Theorem registry_last_write_wins
  (ss : list WaterSource.t) (id pid : string) :
  get id (registered ss)
    = find (fun s => String.eqb (source_id s) id) (rev ss) /\
  NoDup (map source_id (Dict.values (registered ss))) /\
  NoDup (map source_id (by_panchayat (registered ss) pid)).
Proof.
  change (registered ss) with (DictMore.written source_id ss).
  pose proof (DictMore.written_keyed source_id ss) as K.
  split; [apply DictMore.get_written |].
  split.
  - now apply DictMore.values_nodup.
  - unfold by_panchayat. apply nodup_map_filter.
    now apply DictMore.values_nodup.
Qed.

(** X6: the functional and the non-functional sources of a panchayat
    together are its sources, each once, and the flag tells them apart. *)
Theorem functional_partition (self : SourceManager.t) (pid : string) :
  Permutation (functional_sources self pid ++ non_functional_sources self pid)
              (by_panchayat self pid) /\
  Forall (fun s => is_functional s = true) (functional_sources self pid) /\
  Forall (fun s => is_functional s = false) (non_functional_sources self pid).
Proof.
  unfold functional_sources, non_functional_sources.
  split; [apply filter_split |].
  split; apply Forall_forall; intros s H; apply filter_In in H;
    destruct H as [_ H]; [exact H | now apply negb_true_iff].
Qed.

(** The test of [low_yield_sources], which never raises. *)
Definition low (threshold_pct : Q) (s : WaterSource.t) : bool :=
  match yield_pct s with
  | Py.Ok y => y <? threshold_pct
  | Py.Raise _ => false
  end.

(** X7: [low_yield_sources] returns; what it returns are the functional
    sources of the panchayat whose yield percentage is under the
    threshold, and a functional source of capacity 0 is among them for
    every positive threshold. *)
Theorem low_yield_sources_functional
  (self : SourceManager.t) (pid : string) (threshold_pct : Q) :
  exists l,
    low_yield_sources self pid threshold_pct = Py.Ok l /\
    (forall s, In s l <->
       In s (functional_sources self pid) /\
       exists y, yield_pct s = Py.Ok y /\ y < threshold_pct) /\
    (forall s, In s (functional_sources self pid) ->
       capacity_liters_per_day s == 0 -> 0 < threshold_pct -> In s l).
Proof.
  exists (filter (low threshold_pct) (functional_sources self pid)).
  assert (L : forall s, low threshold_pct s = true <->
            exists y, yield_pct s = Py.Ok y /\ y < threshold_pct).
  { intros s. unfold low.
    destruct (DivisionFacts.yield_pct_returns s) as [y E]. rewrite E.
    rewrite ltb_true. split.
    - intros H. now exists y.
    - intros (y' & E' & H). now injection E' as ->. }
  split; [| split].
  - unfold low_yield_sources. apply filterM_pure.
    intros s. unfold low.
    destruct (DivisionFacts.yield_pct_returns s) as [y E]. now rewrite E.
  - intros s. rewrite filter_In, L. reflexivity.
  - intros s F C T. apply filter_In. split; [exact F |].
    apply L. exists 0. split; [| exact T].
    unfold yield_pct. now rewrite (proj2 (eqb_true _ _) C).
Qed.

Lemma low_yield_sources_functional_witness :
  exists l,
    low_yield_sources (register DivisionFacts.dry_well init) "GP001" 40
      = Py.Ok l /\
    In DivisionFacts.dry_well l.
Proof.
  destruct (low_yield_sources_functional
              (register DivisionFacts.dry_well init) "GP001" 40)
    as (l & E & _ & Z).
  exists l. split; [exact E |].
  apply Z; [left; reflexivity | reflexivity | reflexivity].
Defined.

(** X8: the yield percentage of a source with non-negative capacity and
    yield is not negative, and it is at most 100 when the yield does not
    exceed the capacity. *)
Theorem yield_pct_bounds (s : WaterSource.t) (y : Q) :
  0 <= capacity_liters_per_day s -> 0 <= current_yield_lpd s ->
  yield_pct s = Py.Ok y ->
  0 <= y /\
  (current_yield_lpd s <= capacity_liters_per_day s -> y <= 100).
Proof.
  intros C Y. unfold yield_pct.
  destruct (capacity_liters_per_day s =? 0) eqn:E.
  - intros [= <-]. split; [apply Qle_refl | intros _; discriminate].
  - rewrite (DivisionFacts.div_returns _ _ E). cbn [Py.bind].
    intros [= <-]. props.
    assert (P : 0 < capacity_liters_per_day s).
    { apply Qnot_le_lt. intros L. apply E. now apply Qle_antisym. }
    assert (Q0 : 0 <= current_yield_lpd s / capacity_liters_per_day s).
    { apply Qle_shift_div_l; [exact P | now rewrite Qmult_0_l]. }
    split.
    + apply RoundFacts.round_nonneg. lra.
    + intros L. change 100 with (inject_Z 100).
      apply RoundFacts.round_upper.
      assert (Q1 : current_yield_lpd s / capacity_liters_per_day s <= 1).
      { apply Qle_shift_div_r; [exact P | now rewrite Qmult_1_l]. }
      change (inject_Z 100) with 100. lra.
Qed.

Lemma yield_pct_bounds_witness :
  exists y, yield_pct (SourceFacts.src "S1" "GP001" 10000 5000 true) = Py.Ok y
            /\ 0 <= y /\ y <= 100.
Proof.
  eexists. split; [reflexivity |].
  destruct (yield_pct_bounds
              (SourceFacts.src "S1" "GP001" 10000 5000 true)
              (y := Py.round (5000 / 10000 * 100) 1)) as [L U].
  - discriminate.
  - discriminate.
  - reflexivity.
  - split; [exact L | apply U; discriminate].
Defined.

End SourceMore.

(** ** More on the coverage tracker *)

Module CoverageMore.
Import FHTCStatus JJMTracker.

(** The tracker after the updates [us], in order, on a new one. *)
Definition updated (us : list FHTCStatus.t) : JJMTracker.t :=
  fold_left (fun self s => update s self) us init.

(** X9: after [update], [get] on the panchayat of the status returns it
    and the demand gap of that panchayat is its households without a
    connection, 0 when there are more connections than households; other
    panchayats keep their status and gap. The gap is never negative and it
    is 0 for a panchayat that is not tracked. *)
Theorem update_then_demand_gap
  (self : JJMTracker.t) (status : FHTCStatus.t) (pid : string) :
  get (panchayat_id status) (update status self) = Some status /\
  demand_gap (update status self) (panchayat_id status)
    = Z.max 0 (total_households status - fhtc_provided status) /\
  (pid <> panchayat_id status ->
     get pid (update status self) = get pid self /\
     demand_gap (update status self) pid = demand_gap self pid) /\
  (0 <= demand_gap self pid)%Z /\
  (get pid self = None -> demand_gap self pid = 0%Z).
Proof.
  unfold get, update, demand_gap.
  rewrite DictFacts.get_set_eq.
  repeat split.
  - apply DictFacts.get_set_neq. congruence.
  - rewrite DictFacts.get_set_neq by congruence. reflexivity.
  - destruct (Dict.get pid self); lia.
  - intros ->. reflexivity.
Qed.

(** X10: after any sequence of updates, [get] returns the status given
    last for the panchayat, no two tracked statuses are of the same
    panchayat, and an update for a tracked panchayat keeps the number of
    statuses while one for a new panchayat adds one. *)
Theorem tracker_last_write_wins
  (us : list FHTCStatus.t) (status : FHTCStatus.t) (pid : string) :
  get pid (updated us)
    = find (fun s => String.eqb (panchayat_id s) pid) (rev us) /\
  NoDup (map panchayat_id (all_statuses (updated us))) /\
  List.length (all_statuses (update status (updated us)))
    = match get (panchayat_id status) (updated us) with
      | Some _ => List.length (all_statuses (updated us))
      | None => S (List.length (all_statuses (updated us)))
      end.
Proof.
  change (updated us) with (DictMore.written panchayat_id us).
  split; [apply DictMore.get_written |].
  split.
  - apply DictMore.values_nodup, DictMore.written_keyed.
  - unfold all_statuses, Dict.values, update, get.
    rewrite !length_map. apply DictMore.length_set.
Qed.

(** A percentage of a part of a whole. *)
Lemma pct_bounds (a b : Z) :
  (0 <= a <= b)%Z -> (b =? 0)%Z = false ->
  exists c,
    (let* q := Py.div (inject_Z a) (inject_Z b) in
     Py.Ok (Py.round (q * 100) 1)) = Py.Ok c /\
    0 <= c /\ c <= 100.
Proof.
  intros [A B] N.
  rewrite DivisionFacts.div_returns by now rewrite DivisionFacts.eqb_inject_Z.
  cbn [Py.bind]. eexists. split; [reflexivity |].
  apply Z.eqb_neq in N.
  assert (P : 0 < inject_Z b).
  { change 0 with (inject_Z 0). rewrite <- Zlt_Qlt. lia. }
  assert (Q0 : 0 <= inject_Z a / inject_Z b).
  { apply Qle_shift_div_l; [exact P |]. rewrite Qmult_0_l.
    change 0 with (inject_Z 0). now rewrite <- Zle_Qle. }
  assert (Q1 : inject_Z a / inject_Z b <= 1).
  { apply Qle_shift_div_r; [exact P |]. rewrite Qmult_1_l.
    now rewrite <- Zle_Qle. }
  split.
  - apply RoundFacts.round_nonneg. lra.
  - change 100 with (inject_Z 100). apply RoundFacts.round_upper.
    change (inject_Z 100) with 100. lra.
Qed.

(** X11: when the connections provided are at most the households and the
    functional ones at most those provided, both percentages of a status
    lie between 0 and 100. *)
Theorem coverage_pct_bounds (s : FHTCStatus.t) :
  (0 <= fhtc_provided s <= total_households s)%Z ->
  (0 <= fhtc_functional s <= fhtc_provided s)%Z ->
  exists c f,
    coverage_pct s = Py.Ok c /\ functional_pct s = Py.Ok f /\
    0 <= c /\ c <= 100 /\ 0 <= f /\ f <= 100.
Proof.
  intros P F. unfold coverage_pct, functional_pct.
  assert (Z0 : exists c, (if (total_households s =? 0)%Z then Py.Ok 0
             else let* q := Py.div (inject_Z (fhtc_provided s))
                                   (inject_Z (total_households s)) in
                  Py.Ok (Py.round (q * 100) 1)) = Py.Ok c
             /\ 0 <= c /\ c <= 100).
  { destruct (total_households s =? 0)%Z eqn:E.
    - exists 0. repeat split; discriminate.
    - now apply pct_bounds. }
  assert (Z1 : exists f, (if (fhtc_provided s =? 0)%Z then Py.Ok 0
             else let* q := Py.div (inject_Z (fhtc_functional s))
                                   (inject_Z (fhtc_provided s)) in
                  Py.Ok (Py.round (q * 100) 1)) = Py.Ok f
             /\ 0 <= f /\ f <= 100).
  { destruct (fhtc_provided s =? 0)%Z eqn:E.
    - exists 0. repeat split; discriminate.
    - now apply pct_bounds. }
  destruct Z0 as (c & Ec & C0 & C1). destruct Z1 as (f & Ef & F0 & F1).
  exists c, f. tauto.
Qed.

Definition most_connected : FHTCStatus.t :=
  {| panchayat_id := "GP001"; panchayat_name := "Rampur";
     total_households := 500; fhtc_provided := 400; fhtc_functional := 360;
     target_date := "2024-12-31"; report_date := "2024-01-15" |}.

Lemma coverage_pct_bounds_witness :
  exists c f,
    coverage_pct most_connected = Py.Ok c /\
    functional_pct most_connected = Py.Ok f /\
    0 <= c /\ c <= 100 /\ 0 <= f /\ f <= 100.
Proof.
  apply (coverage_pct_bounds most_connected); simpl; lia.
Defined.

(** The test of [below_target], which never raises. *)
Definition under (target_pct : Q) (s : FHTCStatus.t) : bool :=
  match coverage_pct s with
  | Py.Ok c => c <? target_pct
  | Py.Raise _ => false
  end.

(** X12: [below_target] returns; what it returns are the tracked statuses
    whose coverage percentage is under the target, and a status with no
    household is among them for every positive target. *)
Theorem below_target_tracked (self : JJMTracker.t) (target_pct : Q) :
  exists l,
    below_target self target_pct = Py.Ok l /\
    (forall s, In s l <->
       In s (all_statuses self) /\
       exists c, coverage_pct s = Py.Ok c /\ c < target_pct) /\
    (forall s, In s (all_statuses self) ->
       total_households s = 0%Z -> 0 < target_pct -> In s l).
Proof.
  exists (filter (under target_pct) (all_statuses self)).
  assert (L : forall s, under target_pct s = true <->
            exists c, coverage_pct s = Py.Ok c /\ c < target_pct).
  { intros s. unfold under.
    destruct (DivisionFacts.coverage_pct_returns s) as [c E]. rewrite E.
    rewrite ltb_true. split.
    - intros H. now exists c.
    - intros (c' & E' & H). now injection E' as ->. }
  split; [| split].
  - unfold below_target. apply filterM_pure.
    intros s. unfold under.
    destruct (DivisionFacts.coverage_pct_returns s) as [c E]. now rewrite E.
  - intros s. rewrite filter_In, L. reflexivity.
  - intros s F C T. apply filter_In. split; [exact F |].
    apply L. exists 0. split; [| exact T].
    unfold coverage_pct. now rewrite C.
Qed.

End CoverageMore.

(** ** More on the groundwater monitor *)

Lemma last_opt_cases {A} (l : list A) :
  (l = [] /\ Py.last_opt l = None) \/
  (exists l' x, l = l' ++ [x] /\ Py.last_opt l = Some x).
Proof.
  destruct l as [| a l] using rev_ind.
  - left. now split.
  - right. exists l, a. split; [reflexivity | apply last_opt_snoc].
Qed.

Lemma sorted_before_last {A} (R : A -> A -> Prop) (l : list A) (x : A) :
  StronglySorted R (l ++ [x]) -> Forall (fun a => R a x) l.
Proof.
  induction l as [| a l IH]; simpl; intros S; [constructor |].
  inversion S as [| ? ? S' F]; subst. constructor.
  - rewrite Forall_forall in F. apply F, in_or_app. right. now left.
  - now apply IH.
Qed.

Lemma filter_snoc_out {A} (p : A -> bool) (l : list A) (x : A) :
  p x = false -> filter p (l ++ [x]) = filter p l.
Proof.
  intros H. rewrite filter_app. simpl. rewrite H. apply app_nil_r.
Qed.

Lemma max_by_greatest {A} (key : A -> Z) (rest : list A) (best : A) :
  In (Py.max_by key best rest) (best :: rest) /\
  forall x, In x (best :: rest) -> (key x <= key (Py.max_by key best rest))%Z.
Proof.
  revert best. induction rest as [| y rest IH]; intros best; simpl.
  - split; [now left |]. intros x [<- | []]. lia.
  - destruct (Z.gtb_spec (key y) (key best)) as [G | L];
      [destruct (IH y) as [I M] | destruct (IH best) as [I M]].
    + split; [right; exact I |].
      intros x [<- | H]; [| now apply M].
      specialize (M y (or_introl eq_refl)). lia.
    + split; [simpl in I; tauto |].
      intros x [<- | [<- | H]].
      * apply M. now left.
      * specialize (M best (or_introl eq_refl)). lia.
      * apply M. now right.
Qed.

Module GroundwaterMore.
Import GroundwaterLevel GroundwaterMonitor.

Lemma key_le_year a b : key_le a b = true -> (year a <= year b)%Z.
Proof.
  intros H. apply GroundwaterFacts.key_le_order in H.
  destruct H as [H | [H _]]; lia.
Qed.

(** X13: [latest] is [None] exactly when the monitor has no record of the
    panchayat; otherwise it is one of the records of the panchayat and no
    record of the panchayat has a later year. *)
Theorem latest_has_greatest_year (self : GroundwaterMonitor.t) (pid : string) :
  (latest self pid = None <->
     forall r, In r self -> panchayat_id r <> pid) /\
  (forall r, latest self pid = Some r ->
     In r self /\ panchayat_id r = pid /\
     forall r', In r' self -> panchayat_id r' = pid ->
                (year r' <= year r)%Z).
Proof.
  unfold latest.
  pose proof (sorted_perm key_le
    (filter (fun r => String.eqb (panchayat_id r) pid) self)) as P.
  fold (by_panchayat self pid) in P.
  assert (M : forall r, In r (by_panchayat self pid) <->
                        In r self /\ panchayat_id r = pid).
  { intros r. split.
    - intros H. apply (Permutation_in _ P), filter_In in H.
      destruct H as [H1 H2]. apply String.eqb_eq in H2. tauto.
    - intros [H1 H2]. apply (Permutation_in _ (Permutation_sym P)).
      apply filter_In. split; [exact H1 | now apply String.eqb_eq]. }
  destruct (last_opt_cases (by_panchayat self pid))
    as [[E L] | (l & x & E & L)]; rewrite L.
  - split.
    + split; [intros _ | reflexivity].
      intros r I Hp. assert (F : In r (by_panchayat self pid)) by now apply M.
      rewrite E in F. exact F.
    + discriminate.
  - split.
    + split; [discriminate |].
      intros H. exfalso.
      assert (F : In x (by_panchayat self pid))
        by (rewrite E; apply in_or_app; right; now left).
      apply M in F. now apply (H x).
    + intros r [= <-].
      assert (F : In x (by_panchayat self pid))
        by (rewrite E; apply in_or_app; right; now left).
      apply M in F. destruct F as [Ix Px]. split; [exact Ix |].
      split; [exact Px |]. intros r' I' P'.
      assert (F' : In r' (by_panchayat self pid)) by now apply M.
      pose proof (sorted_sorted key_le GroundwaterFacts.key_le_total
        GroundwaterFacts.key_le_trans
        (filter (fun r => String.eqb (panchayat_id r) pid) self)) as S.
      fold (by_panchayat self pid) in S. rewrite E in S, F'.
      apply sorted_before_last in S. rewrite Forall_forall in S.
      apply in_app_or in F'. destruct F' as [F' | [<- | []]].
      * now apply key_le_year, S.
      * lia.
Qed.

(** X14: a record added for another panchayat changes nothing that the
    monitor answers about this one. *)
Theorem add_other_panchayat
  (self : GroundwaterMonitor.t) (r : GroundwaterLevel.t) (pid : string)
  (years : Z) :
  panchayat_id r <> pid ->
  by_panchayat (add r self) pid = by_panchayat self pid /\
  latest (add r self) pid = latest self pid /\
  declining_trend (add r self) pid years = declining_trend self pid years /\
  recharge_potential (add r self) pid = recharge_potential self pid.
Proof.
  intros N. apply String.eqb_neq in N.
  unfold latest, by_panchayat, declining_trend, recharge_potential, add.
  rewrite !filter_snoc_out by (rewrite N; reflexivity).
  repeat split.
Qed.

Lemma add_other_panchayat_witness :
  latest (add (GroundwaterFacts.gw "GP002" WINTER 2025 3 3)
            GroundwaterFacts.until_autumn_2024) "GP001"
  = latest GroundwaterFacts.until_autumn_2024 "GP001".
Proof.
  apply (add_other_panchayat GroundwaterFacts.until_autumn_2024
           (GroundwaterFacts.gw "GP002" WINTER 2025 3 3) (pid := "GP001") 3).
  discriminate.
Defined.

(** The pre-monsoon records of the panchayat, as [declining_trend] selects
    them. *)
Definition pre_monsoon_of (self : GroundwaterMonitor.t) (pid : string)
  : list GroundwaterLevel.t :=
  filter (fun r => String.eqb (panchayat_id r) pid
                   && season_eqb (season r) PRE_MONSOON) self.

Lemma slice_from_length {A} (start : Z) (l : list A) :
  (List.length (Py.slice_from start l) <= List.length l)%nat.
Proof. unfold Py.slice_from. rewrite length_skipn. lia. Qed.

(** X15: [declining_trend] is false, whatever [years] is, when the
    panchayat has fewer than two pre-monsoon records, and it is false on
    every monitor when [years] is 1. *)
Theorem declining_trend_needs_two
  (self : GroundwaterMonitor.t) (pid : string) (years : Z) :
  (List.length (pre_monsoon_of self pid) < 2)%nat \/ years = 1%Z ->
  declining_trend self pid years = false.
Proof.
  intros [H | ->].
  - unfold declining_trend. fold (pre_monsoon_of self pid).
    set (records := Py.sorted year_le (pre_monsoon_of self pid)).
    assert (L : (List.length records < 2)%nat)
      by (unfold records; now rewrite sorted_length).
    pose proof (slice_from_length (- years) records) as S.
    unfold Py.len.
    destruct (Z.of_nat (List.length records) >=? years)%Z.
    + destruct (Z.ltb_spec (Z.of_nat (List.length
                  (Py.slice_from (- years) records))) 2); [reflexivity | lia].
    + destruct (Z.ltb_spec (Z.of_nat (List.length records)) 2);
        [reflexivity | lia].
  - rewrite GroundwaterFacts.declining_trend_positive_years by lia.
    unfold GroundwaterFacts.declining_trend_spec,
      GroundwaterFacts.last_entries.
    rewrite length_skipn.
    destruct (Nat.ltb_spec
      (List.length (GroundwaterFacts.pre_monsoon_by_year self pid)
       - (List.length (GroundwaterFacts.pre_monsoon_by_year self pid)
          - Z.to_nat 1)) 2); [reflexivity | lia].
Qed.

Lemma declining_trend_needs_two_witness :
  declining_trend GroundwaterFacts.falling_2022_2023 "GP001" 1 = false /\
  declining_trend GroundwaterFacts.until_autumn_2024 "GP001" 3 = false.
Proof.
  split.
  - apply declining_trend_needs_two. now right.
  - apply declining_trend_needs_two. left. simpl. lia.
Defined.

(** Each depth is greater than the one before. *)
Definition each_deeper (l : list GroundwaterLevel.t) : Prop :=
  forall i a b, nth_error l i = Some a -> nth_error l (S i) = Some b ->
                depth_meters a < depth_meters b.

Lemma deepening_iff l :
  GroundwaterFacts.deepening (map depth_meters l) = true <-> each_deeper l.
Proof.
  unfold each_deeper.
  induction l as [| a l IH]; [split; [intros _ [] | reflexivity]; discriminate |].
  destruct l as [| b l].
  - split; [| reflexivity]. intros _ [| i] x y; simpl.
    + discriminate.
    + destruct i; discriminate.
  - change (map depth_meters (a :: b :: l))
      with (depth_meters a :: depth_meters b :: map depth_meters l).
    rewrite GroundwaterFacts.deepening_cons, andb_true_iff, gtb_true.
    change (depth_meters b :: map depth_meters l)
      with (map depth_meters (b :: l)).
    rewrite IH. split.
    + intros [H T] [| i] x y; simpl.
      * now intros [= <-] [= <-].
      * apply (T i).
    + intros H. split.
      * now apply (H 0%nat).
      * intros i x y. apply (H (S i)).
Qed.

(** X16: for [years] of 1 or more, [declining_trend] is true exactly when
    the last [years] pre-monsoon records of the panchayat by ascending
    year (all of them when there are fewer) are at least two and each is
    deeper than the one before. *)
Theorem declining_trend_last_years
  (self : GroundwaterMonitor.t) (pid : string) (years : Z) :
  (1 <= years)%Z ->
  declining_trend self pid years = true <->
  (2 <= List.length
          (GroundwaterFacts.last_entries (Z.to_nat years)
             (Py.sorted year_le (pre_monsoon_of self pid))))%nat /\
  each_deeper
    (GroundwaterFacts.last_entries (Z.to_nat years)
       (Py.sorted year_le (pre_monsoon_of self pid))).
Proof.
  intros Y. rewrite (GroundwaterFacts.declining_trend_positive_years _ _ Y).
  unfold GroundwaterFacts.declining_trend_spec.
  change (GroundwaterFacts.pre_monsoon_by_year self pid)
    with (Py.sorted year_le (pre_monsoon_of self pid)).
  set (recent := GroundwaterFacts.last_entries _ _).
  rewrite <- deepening_iff.
  destruct (Nat.ltb_spec (List.length recent) 2).
  - split; [discriminate | intros [L _]; lia].
  - tauto.
Qed.

Definition falling_three : GroundwaterMonitor.t :=
  add (GroundwaterFacts.gw "GP001" PRE_MONSOON 2024 12 10)
    GroundwaterFacts.falling_2022_2023.

Lemma declining_trend_last_years_witness :
  declining_trend falling_three "GP001" 3 = true.
Proof.
  apply (declining_trend_last_years falling_three "GP001" (years := 3)).
  - lia.
  - split; [simpl; lia |].
    intros [| [| [| i]]] a b; simpl; try discriminate;
      intros [= <-] [= <-]; reflexivity.
Defined.

Lemma level_bands (depth : Q) :
  (categorize_level depth = "very_shallow" <-> depth < 2) /\
  (categorize_level depth = "shallow" <-> 2 <= depth /\ depth < 8) /\
  (categorize_level depth = "moderate" <-> 8 <= depth /\ depth < 20) /\
  (categorize_level depth = "deep" <-> 20 <= depth /\ depth < 40) /\
  (categorize_level depth = "very_deep" <-> 40 <= depth).
Proof.
  unfold categorize_level.
  repeat branch; props; repeat split; intros;
    try discriminate; try reflexivity; try lra;
    repeat match goal with H : _ /\ _ |- _ => destruct H end; lra.
Qed.

(** X17: the depth categories are five bands that meet at 2, 8, 20 and
    40, each band holding its lower end. *)
Theorem categorize_level_bands (depth : Q) :
  (categorize_level depth = "very_shallow" <-> depth < 2) /\
  (categorize_level depth = "shallow" <-> 2 <= depth /\ depth < 8) /\
  (categorize_level depth = "moderate" <-> 8 <= depth /\ depth < 20) /\
  (categorize_level depth = "deep" <-> 20 <= depth /\ depth < 40) /\
  (categorize_level depth = "very_deep" <-> 40 <= depth).
Proof. apply level_bands. Qed.

(** X18: the depth alert of [check_groundwater] and the category of the
    depth agree except on the ends of the bands: a CRITICAL alert of
    category groundwater is emitted only at a depth categorized very_deep,
    a depth that is very_shallow, shallow or moderate gets no alert of
    that category, and a depth of exactly 40 is very_deep but gets the
    WARNING alert. *)
Theorem depth_alert_and_category
  (record : GroundwaterLevel.t) (e : AlertEngine.t) :
  exists alerts e',
    AlertEngine.check_groundwater record e = Py.Ok (alerts, e') /\
    (forall a, In a alerts -> WaterAlert.category a = "groundwater" ->
       (WaterAlert.level a = CRITICAL ->
        categorize_level (depth_meters record) = "very_deep") /\
       (categorize_level (depth_meters record) = "deep" \/
        categorize_level (depth_meters record) = "very_deep")) /\
    (depth_meters record == 40 ->
     categorize_level (depth_meters record) = "very_deep" /\
     exists a, In a alerts /\ WaterAlert.category a = "groundwater" /\
               WaterAlert.level a = WARNING).
Proof.
  pose proof (level_bands (depth_meters record)) as (_ & _ & _ & D & V).
  unfold AlertEngine.check_groundwater.
  destruct (depth_meters record >? 40) eqn:E40;
    [| destruct (depth_meters record >? 20) eqn:E20];
    destruct (GroundwaterLevel.is_declining record
              && (GroundwaterLevel.change_meters record >? 2));
    props;
    unfold AlertEngine.mbind, AlertEngine._next_id, AlertEngine.ret;
    cbn [app]; eexists; eexists; (split; [reflexivity |]); split;
    try (intros H; lra);
    try (intros a I C; simpl in I;
         repeat match goal with
         | H : _ \/ _ |- _ => destruct H
         end; try contradiction; subst a; simpl in C;
         first
           [ discriminate C
           | split;
             [ intros L; first [discriminate L | apply V; lra]
             | destruct (Qlt_le_dec (depth_meters record) 40);
               [left; apply D; lra | right; apply V; lra] ] ]).
  all: intros H; split; [apply V; lra |];
    eexists; split; [left; reflexivity | split; reflexivity].
Qed.

Lemma season_eqb_eq a b : season_eqb a b = true <-> a = b.
Proof. destruct a, b; simpl; split; intros H; congruence. Qed.

(** The records of a season of a panchayat. *)
Definition in_season (self : GroundwaterMonitor.t) (pid : string)
  (s : SeasonType) (r : GroundwaterLevel.t) : Prop :=
  In r self /\ panchayat_id r = pid /\ season r = s.

Lemma in_season_filter self pid s r :
  In r (filter (fun r => season_eqb (season r) s)
          (filter (fun r => String.eqb (panchayat_id r) pid) self))
  <-> in_season self pid s r.
Proof.
  unfold in_season.
  rewrite !filter_In, season_eqb_eq, String.eqb_eq. tauto.
Qed.

(** X19: [recharge_potential] is insufficient_data when the panchayat has
    no pre-monsoon record or no post-monsoon record. When it is anything
    else, the panchayat has a pre-monsoon and a post-monsoon record of the
    same year, the latest year of each kind, and the answer does not
    overstate the recovery between the two: it is negligible exactly when
    the pre-monsoon depth is not above the post-monsoon depth, moderate or
    high only when the pre-monsoon depth is more than 2 above it, and high
    only when it is more than 5 above it. *)
Theorem recharge_potential_same_year
  (self : GroundwaterMonitor.t) (pid : string) :
  ((forall r, ~ in_season self pid PRE_MONSOON r) \/
   (forall r, ~ in_season self pid POST_MONSOON r) ->
   recharge_potential self pid = "insufficient_data") /\
  (recharge_potential self pid <> "insufficient_data" ->
   exists p q,
     in_season self pid PRE_MONSOON p /\
     in_season self pid POST_MONSOON q /\
     year p = year q /\
     (forall r, in_season self pid PRE_MONSOON r -> (year r <= year p)%Z) /\
     (forall r, in_season self pid POST_MONSOON r -> (year r <= year q)%Z) /\
     (recharge_potential self pid = "negligible"
        <-> depth_meters p <= depth_meters q) /\
     (recharge_potential self pid = "low" \/
      recharge_potential self pid = "moderate" \/
      recharge_potential self pid = "high"
        <-> depth_meters q < depth_meters p) /\
     (recharge_potential self pid = "moderate" \/
      recharge_potential self pid = "high"
        -> 2 < depth_meters p - depth_meters q) /\
     (recharge_potential self pid = "high"
        -> 5 < depth_meters p - depth_meters q)).
Proof.
  pose proof (in_season_filter self pid PRE_MONSOON) as Pre.
  pose proof (in_season_filter self pid POST_MONSOON) as Post.
  unfold recharge_potential.
  destruct (filter (fun r => season_eqb (season r) PRE_MONSOON)
              (filter (fun r => String.eqb (panchayat_id r) pid) self))
    as [| p0 pre] eqn:Epre.
  { split; [reflexivity | intros H; now contradiction H]. }
  destruct (filter (fun r => season_eqb (season r) POST_MONSOON)
              (filter (fun r => String.eqb (panchayat_id r) pid) self))
    as [| q0 post] eqn:Epost.
  { split; [reflexivity | intros H; now contradiction H]. }
  split.
  - intros [H | H]; exfalso.
    + apply (H p0), Pre. now left.
    + apply (H q0), Post. now left.
  - destruct (max_by_greatest year pre p0) as [Ip Mp].
    destruct (max_by_greatest year post q0) as [Iq Mq].
    set (p := Py.max_by year p0 pre) in *.
    set (q := Py.max_by year q0 post) in *.
    destruct (Z.eqb_spec (year p) (year q)) as [Y | Y]; simpl negb; cbv iota.
    + intros _. exists p, q.
      split; [now apply Pre |]. split; [now apply Post |].
      split; [exact Y |].
      split; [intros r H; now apply Mp, Pre |].
      split; [intros r H; now apply Mq, Post |].
      repeat branch; props; repeat apply conj; intros H;
        repeat match goal with D : _ \/ _ |- _ => destruct D end;
        try discriminate; try reflexivity; try lra;
        first [ left; reflexivity | right; left; reflexivity
              | right; right; reflexivity ].
    + intros H. now contradiction H.
Qed.

Definition monsoon_recovery : GroundwaterMonitor.t :=
  add (GroundwaterFacts.gw "GP001" POST_MONSOON 2024 6 7)
    (add (GroundwaterFacts.gw "GP001" PRE_MONSOON 2024 12 10) init).

Lemma recharge_potential_same_year_witness :
  (exists p q,
     in_season monsoon_recovery "GP001" PRE_MONSOON p /\
     in_season monsoon_recovery "GP001" POST_MONSOON q /\
     year p = year q /\ 5 < depth_meters p - depth_meters q) /\
  recharge_potential GroundwaterFacts.falling_2022_2023 "GP001"
    = "insufficient_data".
Proof.
  split.
  - destruct (proj2 (recharge_potential_same_year monsoon_recovery "GP001"))
      as (p & q & Ip & Iq & Y & _ & _ & _ & _ & _ & H).
    + discriminate.
    + exists p, q. split; [exact Ip |]. split; [exact Iq |].
      split; [exact Y |]. apply H. reflexivity.
  - apply (proj1 (recharge_potential_same_year
                    GroundwaterFacts.falling_2022_2023 "GP001")).
    right. intros r (I & _ & S). simpl in I.
    destruct I as [<- | [<- | []]]; discriminate.
Defined.

End GroundwaterMore.

(** ** More on the rainfall analyzer *)

Lemma sum_snoc (l : list Q) (x : Q) : Py.sum (l ++ [x]) = Py.sum l + x.
Proof. unfold Py.sum. now rewrite fold_left_app. Qed.

Lemma sum_nonneg (l : list Q) : Forall (fun x => 0 <= x) l -> 0 <= Py.sum l.
Proof.
  unfold Py.sum. assert (G : forall a, 0 <= a ->
    Forall (fun x => 0 <= x) l -> 0 <= fold_left Qplus l a).
  { induction l as [| x l IH]; simpl; intros a A F; [exact A |].
    inversion F; subst. apply IH; [lra | assumption]. }
  apply G. apply Qle_refl.
Qed.

Module RainfallMore.
Import RainfallRecord RainfallAnalyzer.

Lemma matching_add self r pid y :
  matching (add r self) pid y
  = if String.eqb (panchayat_id r) pid && (year r =? y)%Z
    then matching self pid y ++ [r] else matching self pid y.
Proof.
  unfold matching, add. rewrite filter_app. simpl.
  destruct (String.eqb (panchayat_id r) pid && (year r =? y)%Z);
    [reflexivity | apply app_nil_r].
Qed.

(** X20: a record added for the panchayat and the year, with a rainfall
    and a normal that are not negative, lowers neither the annual total
    nor the annual normal; a record of another panchayat or another year
    changes neither, nor the deviation and the risks of that panchayat and
    year. *)
Theorem add_rainfall_record
  (self : RainfallAnalyzer.t) (r : RainfallRecord.t) (pid : string) (y : Z) :
  (panchayat_id r = pid /\ year r = y ->
   0 <= rainfall_mm r -> 0 <= normal_mm r ->
     annual_total self pid y <= annual_total (add r self) pid y /\
     annual_normal self pid y <= annual_normal (add r self) pid y) /\
  (panchayat_id r <> pid \/ year r <> y ->
     annual_total (add r self) pid y = annual_total self pid y /\
     annual_normal (add r self) pid y = annual_normal self pid y /\
     annual_deviation_pct (add r self) pid y
       = annual_deviation_pct self pid y /\
     drought_risk (add r self) pid y = drought_risk self pid y /\
     flood_risk (add r self) pid y = flood_risk self pid y).
Proof.
  split.
  - intros [P Y] R N. unfold annual_total, annual_normal.
    rewrite matching_add.
    rewrite (proj2 (String.eqb_eq _ _) P), (proj2 (Z.eqb_eq _ _) Y).
    cbn [andb]. rewrite !map_app. cbn [map]. rewrite !sum_snoc.
    split; lra.
  - intros N.
    assert (M : matching (add r self) pid y = matching self pid y).
    { rewrite matching_add.
      destruct (String.eqb_spec (panchayat_id r) pid);
        destruct (Z.eqb_spec (year r) y); simpl; try reflexivity.
      destruct N; contradiction. }
    unfold drought_risk, flood_risk, annual_deviation_pct, annual_total,
      annual_normal. now rewrite M.
Qed.

Lemma add_rainfall_record_witness :
  annual_total AlertFacts.half_monsoon "GP001" 2024
  <= annual_total (add (AlertFacts.rain 8 120 200) AlertFacts.half_monsoon)
                  "GP001" 2024 /\
  annual_total (add (AlertFacts.rain 8 120 200) AlertFacts.half_monsoon)
               "GP001" 2023
  = annual_total AlertFacts.half_monsoon "GP001" 2023.
Proof.
  split.
  - apply (proj1 (add_rainfall_record AlertFacts.half_monsoon
                    (AlertFacts.rain 8 120 200) "GP001" 2024)).
    + split; reflexivity.
    + discriminate.
    + discriminate.
  - apply (proj2 (add_rainfall_record AlertFacts.half_monsoon
                    (AlertFacts.rain 8 120 200) "GP001" 2023)).
    right. discriminate.
Defined.

(** X21: the drought risk is one of four classes, the flood risk one of
    three, and for no panchayat and year are both other than normal. *)
Theorem drought_and_flood_exclusive
  (self : RainfallAnalyzer.t) (pid : string) (y : Z) :
  exists d f,
    drought_risk self pid y = Py.Ok d /\ flood_risk self pid y = Py.Ok f /\
    (d = "severe_drought" \/ d = "moderate_drought" \/ d = "mild_drought"
     \/ d = "normal") /\
    (f = "high_flood_risk" \/ f = "moderate_flood_risk" \/ f = "normal") /\
    (d = "normal" \/ f = "normal").
Proof.
  unfold drought_risk, flood_risk.
  destruct (DivisionFacts.annual_deviation_pct_returns self pid y) as [dev E].
  rewrite E. cbn [Py.bind].
  repeat branch; props; eexists; eexists;
    (split; [reflexivity |]); (split; [reflexivity |]);
    repeat split; try tauto; try lra.
Qed.

(** X22: when no record has a negative rainfall or normal, the annual
    deviation is never under -100. *)
Theorem annual_deviation_at_least_minus_100
  (self : RainfallAnalyzer.t) (pid : string) (y : Z) (dev : Q) :
  Forall (fun r => 0 <= rainfall_mm r /\ 0 <= normal_mm r) self ->
  annual_deviation_pct self pid y = Py.Ok dev ->
  -100 <= dev.
Proof.
  intros V. unfold annual_deviation_pct.
  assert (A : 0 <= annual_total self pid y).
  { apply sum_nonneg, Forall_forall. intros x H.
    apply in_map_iff in H. destruct H as (r & <- & H).
    apply filter_In in H. rewrite Forall_forall in V. now apply V. }
  assert (N : 0 <= annual_normal self pid y).
  { apply sum_nonneg, Forall_forall. intros x H.
    apply in_map_iff in H. destruct H as (r & <- & H).
    apply filter_In in H. rewrite Forall_forall in V. now apply V. }
  destruct (annual_normal self pid y =? 0) eqn:E.
  - intros [= <-]. discriminate.
  - rewrite (DivisionFacts.div_returns _ _ E). cbn [Py.bind].
    intros [= <-]. props.
    assert (P : 0 < annual_normal self pid y).
    { apply Qnot_le_lt. intros L. apply E. now apply Qle_antisym. }
    assert (D : -1 <= (annual_total self pid y - annual_normal self pid y)
                      / annual_normal self pid y).
    { apply Qle_shift_div_l; [exact P | lra]. }
    change (-100) with (inject_Z (-100)). apply RoundFacts.round_lower.
    change (inject_Z (-100)) with (-100). lra.
Qed.

Lemma annual_deviation_at_least_minus_100_witness :
  exists dev,
    annual_deviation_pct AlertFacts.half_monsoon "GP001" 2024 = Py.Ok dev /\
    -100 <= dev.
Proof.
  eexists. split; [reflexivity |].
  apply (@annual_deviation_at_least_minus_100 AlertFacts.half_monsoon
           "GP001" 2024).
  - repeat constructor; discriminate.
  - reflexivity.
Defined.

End RainfallMore.

(** ** More on the planner *)

Lemma round_integer (x : Q) (z : Z) (n : nat) :
  x == inject_Z z -> Py.round x n == inject_Z z.
Proof.
  intros H. apply Qle_antisym.
  - apply RoundFacts.round_upper. rewrite H. apply Qle_refl.
  - apply RoundFacts.round_lower. rewrite H. apply Qle_refl.
Qed.

Module PlannerMore.
Import WaterBudget WaterBudgetPlanner.

(** X23: the sustainability index of a budget with non-negative supply
    and demand lies between 0 and 100, and it is 100 when the supply is
    not under the demand. *)
Theorem sustainability_index_capped (b : WaterBudget.t) (i : Q) :
  0 <= total_supply_lpd b -> 0 <= total_demand_lpd b ->
  sustainability_index b = Py.Ok i ->
  0 <= i /\ i <= 100 /\
  (total_demand_lpd b <= total_supply_lpd b -> i == 100).
Proof.
  intros S D. unfold sustainability_index.
  destruct (total_demand_lpd b =? 0) eqn:E.
  - intros [= <-].
    split; [discriminate | split; [discriminate | reflexivity]].
  - rewrite (DivisionFacts.div_returns _ _ E). cbn [Py.bind].
    intros [= <-]. props.
    assert (P : 0 < total_demand_lpd b).
    { apply Qnot_le_lt. intros L. apply E. now apply Qle_antisym. }
    assert (R : 0 <= total_supply_lpd b / total_demand_lpd b).
    { apply Qle_shift_div_l; [exact P | now rewrite Qmult_0_l]. }
    unfold Py.min.
    destruct (total_supply_lpd b / total_demand_lpd b * 100 <? 100) eqn:M;
      props.
    + split; [apply RoundFacts.round_nonneg; lra |].
      split.
      * change 100 with (inject_Z 100). apply RoundFacts.round_upper.
        change (inject_Z 100) with 100. lra.
      * intros L. exfalso.
        assert (1 <= total_supply_lpd b / total_demand_lpd b)
          by (apply Qle_shift_div_l; [exact P | now rewrite Qmult_1_l]).
        lra.
    + split; [discriminate |]. split; [discriminate |].
      intros _. reflexivity.
Qed.

Definition ample : WaterBudget.t :=
  {| panchayat_id := "GP001"; year := 2024;
     total_demand_lpd := 5000; total_supply_lpd := 20000;
     domestic_demand_lpd := 5000; agriculture_demand_lpd := 0;
     industrial_demand_lpd := 0 |}.

Lemma sustainability_index_capped_witness :
  exists i,
    sustainability_index ample = Py.Ok i /\ 0 <= i /\ i <= 100 /\ i == 100.
Proof.
  eexists. split; [reflexivity |].
  destruct (@sustainability_index_capped ample
              (Py.round (Py.min 100 (20000 / 5000 * 100)) 1))
    as (L & U & C).
  - discriminate.
  - discriminate.
  - reflexivity.
  - split; [exact L | split; [exact U | apply C; discriminate]].
Defined.

(** The budget of [estimate_demand], before it is validated. *)
Definition estimate (population livestock : Z) (hectares : Q)
  : WaterBudget.t :=
  let domestic := inject_Z (population * DOMESTIC_LPCD) in
  let agriculture :=
    hectares * inject_Z IRRIGATION_MM_PER_HECTARE * 1000 / 365 in
  let livestock_demand := inject_Z (livestock * LIVESTOCK_LPCD) in
  {| panchayat_id := "";
     year := 0;
     total_demand_lpd :=
       Py.round (domestic + agriculture + livestock_demand) 0;
     total_supply_lpd := 0;
     domestic_demand_lpd := Py.round domestic 0;
     agriculture_demand_lpd := Py.round (agriculture + livestock_demand) 0;
     industrial_demand_lpd := 0 |}.

Lemma estimate_demand_validates population livestock hectares :
  estimate_demand population livestock hectares
  = WaterBudget.validated (estimate population livestock hectares).
Proof.
  unfold estimate_demand.
  rewrite DivisionFacts.div_returns by reflexivity. reflexivity.
Qed.

(** Non-negative arguments pass the constraints of the budget. *)
Lemma estimate_demand_accepts population livestock hectares :
  (0 <= population)%Z -> (0 <= livestock)%Z -> 0 <= hectares ->
  estimate_demand population livestock hectares
  = Py.Ok (estimate population livestock hectares).
Proof.
  intros P L H. rewrite estimate_demand_validates.
  assert (D : 0 <= inject_Z (population * DOMESTIC_LPCD)).
  { change 0 with (inject_Z 0). rewrite <- Zle_Qle.
    unfold DOMESTIC_LPCD. lia. }
  assert (S : 0 <= inject_Z (livestock * LIVESTOCK_LPCD)).
  { change 0 with (inject_Z 0). rewrite <- Zle_Qle.
    unfold LIVESTOCK_LPCD. lia. }
  assert (A : 0 <= hectares * inject_Z IRRIGATION_MM_PER_HECTARE * 1000
                   / 365).
  { apply Qle_shift_div_l; [reflexivity |]. rewrite Qmult_0_l.
    unfold IRRIGATION_MM_PER_HECTARE. change (inject_Z 500) with 500. lra. }
  unfold WaterBudget.validated, estimate.
  cbn [total_demand_lpd total_supply_lpd domestic_demand_lpd
       agriculture_demand_lpd industrial_demand_lpd].
  rewrite (proj2 (geb_true _ 0)) by (apply RoundFacts.round_nonneg; lra).
  rewrite (proj2 (geb_true (Py.round (inject_Z _) 0) 0))
    by (apply RoundFacts.round_nonneg; lra).
  rewrite (proj2 (geb_true (Py.round (_ + _) 0) 0))
    by (apply RoundFacts.round_nonneg; lra).
  reflexivity.
Qed.

(** X24: for a non-negative population, livestock and irrigated area,
    [estimate_demand] returns a budget without supply and industrial
    demand whose domestic demand is 55 per person; without irrigated
    area its agriculture demand is 30 per animal and its total demand the
    sum of the two. Without irrigated area and with a negative sum of the
    two demands, the budget is rejected and [estimate_demand] raises a
    validation error. *)
Theorem estimate_demand_budget (population livestock : Z) (hectares : Q) :
  ((0 <= population)%Z -> (0 <= livestock)%Z -> 0 <= hectares ->
   exists b,
     estimate_demand population livestock hectares = Py.Ok b /\
     total_supply_lpd b = 0 /\ industrial_demand_lpd b = 0 /\
     domestic_demand_lpd b == inject_Z (55 * population) /\
     (hectares == 0 ->
      agriculture_demand_lpd b == inject_Z (30 * livestock) /\
      total_demand_lpd b == inject_Z (55 * population + 30 * livestock))) /\
  (hectares == 0 -> (55 * population + 30 * livestock < 0)%Z ->
   estimate_demand population livestock hectares
   = Py.Raise Py.ValidationError).
Proof.
  assert (T : hectares == 0 ->
    total_demand_lpd (estimate population livestock hectares)
    == inject_Z (55 * population + 30 * livestock)).
  { intros H. unfold estimate. cbn [total_demand_lpd].
    unfold DOMESTIC_LPCD, LIVESTOCK_LPCD, IRRIGATION_MM_PER_HECTARE.
    apply round_integer. rewrite H.
    rewrite inject_Z_plus, (Z.mul_comm 30), (Z.mul_comm 55).
    unfold Qdiv. ring. }
  split.
  - intros P L H. rewrite (estimate_demand_accepts P L H).
    eexists. split; [reflexivity |].
    split; [reflexivity |]. split; [reflexivity |].
    split.
    + unfold estimate. cbn [domestic_demand_lpd]. unfold DOMESTIC_LPCD.
      apply round_integer. now rewrite Z.mul_comm.
    + intros Z0. split; [| now apply T].
      unfold estimate. cbn [agriculture_demand_lpd].
      unfold LIVESTOCK_LPCD, IRRIGATION_MM_PER_HECTARE.
      apply round_integer. rewrite Z0, (Z.mul_comm 30). unfold Qdiv. ring.
  - intros H N. rewrite estimate_demand_validates.
    unfold WaterBudget.validated.
    replace (total_demand_lpd (estimate population livestock hectares) >=? 0)
      with false; [reflexivity |].
    symmetry. apply geb_false. rewrite (T H).
    change 0 with (inject_Z 0). now rewrite <- Zlt_Qlt.
Qed.

Lemma estimate_demand_budget_witness :
  (exists b,
     estimate_demand 1000 0 0 = Py.Ok b /\
     domestic_demand_lpd b == 55000 /\ total_demand_lpd b == 55000) /\
  estimate_demand (-1) 0 0 = Py.Raise Py.ValidationError.
Proof.
  destruct (estimate_demand_budget 1000 0 0) as [A _].
  destruct (estimate_demand_budget (-1) 0 0) as [_ R].
  split.
  - destruct A as (b & E & _ & _ & D & G); [lia | lia | discriminate |].
    exists b. split; [exact E |]. split; [exact D |].
    apply G. reflexivity.
  - apply R; [reflexivity | lia].
Defined.

(** X25: the budget [estimate_demand] returns for a non-negative
    population, livestock and irrigated area has, before a supply is
    assigned to it, the sustainability index 0, or 100 when its total
    demand is 0. *)
Theorem estimate_without_supply (population livestock : Z) (hectares : Q) :
  (0 <= population)%Z -> (0 <= livestock)%Z -> 0 <= hectares ->
  exists b i,
    estimate_demand population livestock hectares = Py.Ok b /\
    sustainability_index b = Py.Ok i /\
    (total_demand_lpd b == 0 -> i = 100) /\
    (~ total_demand_lpd b == 0 -> i == 0).
Proof.
  intros P L H. rewrite (estimate_demand_accepts P L H).
  exists (estimate population livestock hectares).
  unfold sustainability_index.
  destruct (total_demand_lpd (estimate population livestock hectares) =? 0)
    eqn:E.
  - exists 100. split; [reflexivity |]. split; [reflexivity |].
    props. split; [reflexivity | intros N; contradiction].
  - rewrite (DivisionFacts.div_returns _ _ E). cbn [Py.bind].
    eexists. split; [reflexivity |]. split; [reflexivity |].
    props. split; [intros Z; contradiction |]. intros _.
    apply (round_integer (z := 0)).
    unfold Py.min, estimate. cbn [total_supply_lpd].
    match goal with |- context [if ?c then _ else _] => destruct c eqn:M end;
      props.
    + unfold Qdiv. rewrite !Qmult_0_l. reflexivity.
    + unfold Qdiv in M. rewrite !Qmult_0_l in M. lra.
Qed.

Lemma estimate_without_supply_witness :
  exists b i,
    estimate_demand 1000 20 2 = Py.Ok b /\
    sustainability_index b = Py.Ok i /\ i == 0.
Proof.
  destruct (@estimate_without_supply 1000 20 2) as (b & i & E & S & _ & N);
    [lia | lia | discriminate |].
  exists b, i. split; [exact E |]. split; [exact S |].
  apply N. intros Z0.
  rewrite estimate_demand_accepts in E by (try lia; discriminate).
  injection E as <-. vm_compute in Z0. discriminate.
Defined.

End PlannerMore.

(** ** More on the alert engine *)

Module AlertMore.
Import Py AlertEngine.

(** X26: fed with the annual deviation of a panchayat and year,
    [check_rainfall] emits its drought alert exactly when the drought
    risk is severe or moderate, its flood alert exactly when the flood
    risk is high, and nothing exactly when neither is the case. *)
Theorem rainfall_alert_matches_risk
  (self : RainfallAnalyzer.t) (pid : string) (y : Z) (e : AlertEngine.t) :
  exists dev d f alerts e',
    RainfallAnalyzer.annual_deviation_pct self pid y = Ok dev /\
    RainfallAnalyzer.drought_risk self pid y = Ok d /\
    RainfallAnalyzer.flood_risk self pid y = Ok f /\
    check_rainfall pid dev e = Ok (alerts, e') /\
    (AlertFacts.single CRITICAL "drought" pid alerts
       <-> d = "severe_drought" \/ d = "moderate_drought") /\
    (AlertFacts.single CRITICAL "flood" pid alerts
       <-> f = "high_flood_risk") /\
    (alerts = []
       <-> (d = "mild_drought" \/ d = "normal") /\ f <> "high_flood_risk").
Proof.
  destruct (DivisionFacts.annual_deviation_pct_returns self pid y) as [dev E].
  exists dev.
  unfold RainfallAnalyzer.drought_risk, RainfallAnalyzer.flood_risk.
  rewrite E. cbn [bind]. unfold check_rainfall.
  destruct (dev <=? -60) eqn:D60; destruct (dev <=? -40) eqn:D40;
    destruct (dev <=? -20) eqn:D20; destruct (dev >=? 60) eqn:F60;
    destruct (dev >=? 30) eqn:F30; props; try lra;
    unfold mbind, _next_id, ret; cbn [app];
    eexists; eexists; eexists; eexists;
    (split; [reflexivity |]); (split; [reflexivity |]);
    (split; [reflexivity |]); (split; [reflexivity |]);
    unfold AlertFacts.single;
    repeat apply conj; intros;
    repeat match goal with
    | H : _ /\ _ |- _ => destruct H
    | H : _ \/ _ |- _ => destruct H
    | H : exists _, _ |- _ => destruct H
    end;
    try discriminate; try congruence;
    try solve [eexists; repeat split];
    try solve [left; reflexivity]; try solve [right; reflexivity];
    try solve [split; [left; reflexivity | discriminate]];
    try solve [split; [right; reflexivity | discriminate]];
    match goal with
    | H : [_] = [?x], C : WaterAlert.category ?x = _ |- _ =>
        injection H as H; subst x; discriminate C
    end.
Qed.

(** The alert of [check_quality] for a report. *)
Definition quality_alert (lvl : AlertLevel) (report : WaterQualityReport.t)
  (alerts : list WaterAlert.t) : Prop :=
  exists a, alerts = [a] /\ WaterAlert.level a = lvl /\
    WaterAlert.category a = "water_quality" /\
    WaterAlert.panchayat_id a = "" /\
    WaterAlert.source_id a = WaterQualityReport.source_id report /\
    WaterAlert.date a = WaterQualityReport.test_date report.

(** X27: [check_quality] emits one EMERGENCY alert for a report graded
    hazardous, one WARNING alert for one graded contaminated and nothing
    for the other grades; the alert names the source and the test date of
    the report and no panchayat. A report with coliform gets the EMERGENCY
    alert. *)
Theorem check_quality_by_grade
  (report : WaterQualityReport.t) (e : AlertEngine.t) :
  exists alerts e',
    check_quality report e = Ok (alerts, e') /\
    (WaterQualityAnalyzer.grade_report report = HAZARDOUS ->
       quality_alert EMERGENCY report alerts) /\
    (WaterQualityAnalyzer.grade_report report = CONTAMINATED ->
       quality_alert WARNING report alerts) /\
    (WaterQualityAnalyzer.grade_report report = SAFE \/
     WaterQualityAnalyzer.grade_report report = ACCEPTABLE ->
       alerts = []) /\
    (WaterQualityReport.coliform_present report = true ->
       quality_alert EMERGENCY report alerts).
Proof.
  assert (C : WaterQualityReport.coliform_present report = true ->
              WaterQualityAnalyzer.grade_report report = HAZARDOUS).
  { intros H. rewrite QualityMore.grade_report_flags.
    unfold QualityMore.hazard. rewrite H, orb_true_r. reflexivity. }
  unfold check_quality, quality_alert.
  destruct (WaterQualityAnalyzer.grade_report report);
    unfold mbind, _next_id, ret; cbn [grade_eqb app];
    eexists; eexists; (split; [reflexivity |]);
    repeat apply conj; intros H;
    try discriminate H; try (apply C in H; discriminate H);
    try (destruct H; discriminate);
    try reflexivity; eexists; repeat split.
Qed.

Lemma check_quality_by_grade_witness :
  exists alerts e',
    check_quality (QualityFacts.mk 7.2 350 0.5 100 2.1 1 0.1 20 true) init
      = Ok (alerts, e') /\
    quality_alert EMERGENCY
      (QualityFacts.mk 7.2 350 0.5 100 2.1 1 0.1 20 true) alerts.
Proof.
  destruct (check_quality_by_grade
              (QualityFacts.mk 7.2 350 0.5 100 2.1 1 0.1 20 true) init)
    as (alerts & e' & E & _ & _ & _ & C).
  exists alerts, e'. split; [exact E | apply C; reflexivity].
Defined.

(** X28: for a positive population, [check_supply] emits one EMERGENCY
    alert when the supply is under 27 per person, one WARNING alert when
    it is at least 27 and under 55 per person, and nothing from 55 per
    person on. *)
Theorem check_supply_thresholds
  (population : Z) (supply : Q) (e : AlertEngine.t) :
  (0 < population)%Z ->
  exists alerts e',
    check_supply population supply e = Ok (alerts, e') /\
    (supply < 27 * inject_Z population ->
       AlertFacts.single EMERGENCY "supply" "" alerts) /\
    (27 * inject_Z population <= supply ->
     supply < 55 * inject_Z population ->
       AlertFacts.single WARNING "supply" "" alerts) /\
    (55 * inject_Z population <= supply -> alerts = []).
Proof.
  intros P.
  assert (P' : 0 < inject_Z population)
    by (change 0 with (inject_Z 0); now rewrite <- Zlt_Qlt).
  assert (L : forall k, supply < k * inject_Z population ->
                        supply / inject_Z population < k)
    by (intros k; now apply Qlt_shift_div_r).
  assert (G : forall k, k * inject_Z population <= supply ->
                        k <= supply / inject_Z population)
    by (intros k; now apply Qle_shift_div_l).
  unfold check_supply.
  replace (population =? 0)%Z with false by (symmetry; apply Z.eqb_neq; lia).
  unfold mbind at 1. unfold lift.
  rewrite DivisionFacts.div_returns
    by (rewrite DivisionFacts.eqb_inject_Z; apply Z.eqb_neq; lia).
  unfold JJM_LPCD_STANDARD. change (inject_Z 55) with 55.
  pose proof (L 27) as L27. pose proof (L 55) as L55.
  pose proof (G 27) as G27. pose proof (G 55) as G55.
  repeat branch; props; unfold mbind, _next_id, ret; cbn [app];
    eexists; eexists; (split; [reflexivity |]);
    unfold AlertFacts.single;
    repeat apply conj; intros;
    repeat match goal with
    | H : supply < _ * _, I : supply < _ -> _ |- _ => specialize (I H)
    | H : _ * _ <= supply, I : _ <= supply -> _ |- _ => specialize (I H)
    end;
    try lra; try reflexivity; eexists; repeat split.
Qed.

Lemma check_supply_thresholds_witness :
  exists alerts e',
    check_supply 1000 20000 init = Ok (alerts, e') /\
    AlertFacts.single EMERGENCY "supply" "" alerts.
Proof.
  destruct (@check_supply_thresholds 1000 20000 init) as
    (alerts & e' & E & S & _); [lia |].
  exists alerts, e'. split; [exact E | apply S; reflexivity].
Defined.

(** X29: a change of more than 2 metres is a decline, so the trend test
    of [check_groundwater] comes down to the change alone. *)
Theorem trend_test_is_the_change (record : GroundwaterLevel.t) :
  GroundwaterLevel.is_declining record
  && (GroundwaterLevel.change_meters record >? 2)
  = (GroundwaterLevel.change_meters record >? 2).
Proof.
  destruct (GroundwaterLevel.is_declining record) eqn:D; [reflexivity |].
  simpl. symmetry. apply gtb_false.
  unfold GroundwaterLevel.is_declining in D. props.
  apply Qle_trans with (inject_Z 0); [| discriminate].
  apply RoundFacts.round_upper. change (inject_Z 0) with 0. lra.
Qed.

Lemma prefix_append (p s : string) : String.prefix p (p ++ s)%string = true.
Proof.
  induction p as [| a p IH]; simpl.
  - now destruct s.
  - destruct (ascii_dec a a); [exact IH | contradiction].
Qed.

(** An alert as the engine makes them: active, with an identifier that
    begins with ALERT-. *)
Definition fresh (a : WaterAlert.t) : Prop :=
  WaterAlert.is_active a = true /\
  String.prefix "ALERT-" (WaterAlert.alert_id a) = true.

(** What a check returns: at most two alerts, all of them fresh. *)
Definition tidy (m : M (list WaterAlert.t)) : Prop :=
  forall e alerts e',
    m e = Ok (alerts, e') ->
    Forall fresh alerts /\ (List.length alerts <= 2)%nat.

Ltac tidy_case :=
  intros e alerts e'; unfold mbind, lift, _next_id, ret; cbn [app];
  intros [= <- <-]; split; [| simpl; lia];
  repeat constructor; apply (prefix_append "ALERT-").

Lemma check_quality_tidy report : tidy (check_quality report).
Proof. unfold check_quality. repeat branch; tidy_case. Qed.

Lemma check_groundwater_tidy record : tidy (check_groundwater record).
Proof. unfold check_groundwater. repeat branch; tidy_case. Qed.

Lemma check_rainfall_tidy pid dev : tidy (check_rainfall pid dev).
Proof. unfold check_rainfall. repeat branch; tidy_case. Qed.

Lemma check_supply_tidy population supply :
  tidy (check_supply population supply).
Proof.
  unfold check_supply. destruct (population =? 0)%Z eqn:E; [tidy_case |].
  intros e. unfold mbind at 1. unfold lift.
  rewrite DivisionFacts.div_returns
    by now rewrite DivisionFacts.eqb_inject_Z.
  revert e. repeat branch; tidy_case.
Qed.

Lemma run_call_tidy c : tidy (run_call c).
Proof.
  destruct c; simpl.
  - apply check_quality_tidy.
  - apply check_groundwater_tidy.
  - apply check_supply_tidy.
  - apply check_rainfall_tidy.
Qed.

(** X30: over any sequence of checks on one engine, the counter grows by
    the number of alerts emitted, every alert is active and has an
    identifier that begins with ALERT-, and there are at most two alerts
    for each check. *)
Theorem engine_counts_alerts (cs : list call) (e : AlertEngine.t) :
  exists alerts e',
    run_calls cs e = Ok (alerts, e') /\
    _alert_counter e'
      = (_alert_counter e + N.of_nat (List.length alerts))%N /\
    Forall fresh alerts /\
    (List.length alerts <= 2 * List.length cs)%nat.
Proof.
  destruct (AlertFacts.run_calls_emits cs e) as (alerts & e' & E & C & _).
  exists alerts, e'. split; [exact E |]. split; [exact C |].
  clear C. revert e alerts e' E.
  induction cs as [| c cs IH]; intros e alerts e'; simpl.
  - unfold ret. intros [= <- <-]. split; [constructor | simpl; lia].
  - unfold mbind at 1.
    destruct (AlertFacts.run_call_emits c e) as (a & e1 & E1 & _).
    rewrite E1. unfold mbind at 1.
    destruct (AlertFacts.run_calls_emits cs e1) as (b & e2 & E2 & _).
    rewrite E2. unfold ret. intros [= <- <-].
    destruct (run_call_tidy c _ E1) as [F1 L1].
    destruct (IH _ _ _ E2) as [F2 L2].
    split; [now apply Forall_app |].
    rewrite length_app. lia.
Qed.

End AlertMore.
